(** * strict-boolean-expressions (stencil-eslint)

    A shallow embedding of the rule that restricts the types allowed in
    boolean expressions, and the properties of its type classification,
    failure determination, traversal and message formatting.

    The rule consumes two things it does not define: the TypeScript syntax
    tree and the TypeScript type checker.  Types are embedded as the record
    of the fields the rule reads ([flags], the symbol name, [intrinsicName],
    the union members [types]); syntax nodes as an inductive type with one
    constructor per node kind the rule looks into. *)

From Stdlib Require Import List String NArith ZArith Bool Lia Permutation.
Import ListNotations.
Local Open Scope string_scope.
Local Open Scope list_scope.

Set Implicit Arguments.
#[local] Set Warnings "-register-all".

(** ** The type checker's vocabulary *)

(** [ts.TypeFlags], the bit set carried by every [ts.Type] (typescript 4.8 and
    later; the rule calls [ts.canHaveModifiers]).  The rule only ever tests
    [(obj.flags & flag) !== 0] against these masks; every mask is below
    [2^31], so the 32-bit conversion of JavaScript's [&] keeps exactly the
    bits that [N.land] keeps. *)
Module TypeFlags.
Definition Any : N := 1.
Definition Unknown : N := 2.
Definition String : N := 4.
Definition Number : N := 8.
Definition Boolean : N := 16.
Definition Enum : N := 32.
Definition BigInt : N := 64.
Definition StringLiteral : N := 128.
Definition NumberLiteral : N := 256.
Definition BooleanLiteral : N := 512.
Definition EnumLiteral : N := 1024.
Definition BigIntLiteral : N := 2048.
Definition ESSymbol : N := 4096.
Definition UniqueESSymbol : N := 8192.
Definition Void : N := 16384.
Definition Undefined : N := 32768.
Definition Null : N := 65536.
Definition Never : N := 131072.
Definition TypeParameter : N := 262144.
Definition Object : N := 524288.
Definition Union : N := 1048576.
Definition Intersection : N := 2097152.
Definition TemplateLiteral : N := 134217728.
Definition StringMapping : N := 268435456.
Definition StringLike : N :=
  N.lor (N.lor String StringLiteral) (N.lor TemplateLiteral StringMapping).
Definition NumberLike : N := N.lor (N.lor Number NumberLiteral) Enum.
Definition EnumLike : N := N.lor Enum EnumLiteral.
End TypeFlags.

(** The [value] of a [ts.LiteralType].  The rule never reads it; it is kept so
    that the empty-string and the zero literal types can be told apart from
    the other literal types. *)
Inductive LiteralValue : Type :=
| StringValue (s : string)
| NumberValue (z : Z).

(** A [ts.Type] as the rule sees it. *)
Inductive TsType : Type :=
  MkType {
    flags : N;
    (** [type.getSymbol()] and, when there is one, its [getName()] *)
    symbol : option string;
    intrinsicName : option string;
    value : option LiteralValue;
    (** the members of a union, in the order the checker stores them *)
    types : list TsType
  }.

(** [const enum TypeKind], inlined by the compiler as 0 .. 10. *)
Module TypeKind.
Inductive t : Set :=
| String | FalseStringLiteral | Number | FalseNumberLiteral
| Boolean | FalseBooleanLiteral | Null | Undefined | Enum
| AlwaysTruthy | Promise.

Definition code (k : t) : N :=
  match k with
  | String => 0 | FalseStringLiteral => 1 | Number => 2
  | FalseNumberLiteral => 3 | Boolean => 4 | FalseBooleanLiteral => 5
  | Null => 6 | Undefined => 7 | Enum => 8 | AlwaysTruthy => 9
  | Promise => 10
  end%N.
End TypeKind.

(** [const enum TypeFailure], inlined by the compiler as 0 .. 8. *)
Module TypeFailure.
Inductive t : Set :=
| AlwaysTruthy | AlwaysFalsy | String | Number | Null | Undefined
| Enum | Mixes | Promise.

Definition code (f : t) : N :=
  match f with
  | AlwaysTruthy => 0 | AlwaysFalsy => 1 | String => 2 | Number => 3
  | Null => 4 | Undefined => 5 | Enum => 6 | Mixes => 7 | Promise => 8
  end%N.

Definition eqb (f g : t) : bool := N.eqb (code f) (code g).
End TypeFailure.

(** ** Options *)

Definition OPTION_ALLOW_NULL_UNION := "allow-null-union".
Definition OPTION_ALLOW_UNDEFINED_UNION := "allow-undefined-union".
Definition OPTION_ALLOW_STRING := "allow-string".
Definition OPTION_ALLOW_ENUM := "allow-enum".
Definition OPTION_ALLOW_NUMBER := "allow-number".
Definition OPTION_ALLOW_MIX := "allow-mix".
Definition OPTION_ALLOW_BOOLEAN_OR_UNDEFINED := "allow-boolean-or-undefined".
Definition OPTION_ALLOW_ANY_RHS := "allow-any-rhs".

Record Options : Type :=
  MkOptions {
    strictNullChecks : bool;
    allowNullUnion : bool;
    allowUndefinedUnion : bool;
    allowString : bool;
    allowEnum : bool;
    allowNumber : bool;
    allowMix : bool;
    allowBooleanOrUndefined : bool;
    allowAnyRhs : bool
  }.

(** [ruleArguments.indexOf(name) !== -1] *)
Definition has (ruleArguments : list string) (name : string) : bool :=
  existsb (String.eqb name) ruleArguments.

Definition parseOptions (ruleArguments : list string)
                        (strictNullChecks : bool) : Options :=
  {| strictNullChecks := strictNullChecks;
     allowNullUnion := has ruleArguments OPTION_ALLOW_NULL_UNION;
     allowUndefinedUnion := has ruleArguments OPTION_ALLOW_UNDEFINED_UNION;
     allowString := has ruleArguments OPTION_ALLOW_STRING;
     allowEnum := has ruleArguments OPTION_ALLOW_ENUM;
     allowNumber := has ruleArguments OPTION_ALLOW_NUMBER;
     allowMix := has ruleArguments OPTION_ALLOW_MIX;
     allowBooleanOrUndefined :=
       has ruleArguments OPTION_ALLOW_BOOLEAN_OR_UNDEFINED;
     allowAnyRhs := has ruleArguments OPTION_ALLOW_ANY_RHS |}.

(** ** Type classification and failure determination *)

Definition isTypeFlagSet (obj : TsType) (flag : N) : bool :=
  negb (N.eqb (N.land (flags obj) flag) 0).

Definition isUnionType (type : TsType) : bool :=
  isTypeFlagSet type TypeFlags.Union &&
  negb (isTypeFlagSet type TypeFlags.Enum).

(** [intrinsicName === "true"] *)
Definition intrinsicNameIsTrue (type : TsType) : bool :=
  match intrinsicName type with
  | Some s => String.eqb s "true"
  | None => false
  end.

(** The inner [isObject] of [getKind]: a symbol exists and has that name. *)
Definition isObject (type : TsType) (name : string) : bool :=
  match symbol type with
  | Some s => String.eqb s name
  | None => false
  end.

Definition getKind (type : TsType) : TypeKind.t :=
  let is_ := isTypeFlagSet type in
  if is_ TypeFlags.StringLike then TypeKind.String
  else if is_ TypeFlags.NumberLike then TypeKind.Number
  else if is_ TypeFlags.Boolean then TypeKind.Boolean
  else if isObject type "Promise" then TypeKind.Promise
  else if is_ TypeFlags.Null then TypeKind.Null
  else if is_ (N.lor TypeFlags.Undefined TypeFlags.Void) then
    TypeKind.Undefined
  else if is_ TypeFlags.EnumLike then TypeKind.Enum
  else if is_ TypeFlags.BooleanLiteral then
    (if intrinsicNameIsTrue type then TypeKind.AlwaysTruthy
     else TypeKind.FalseBooleanLiteral)
  else TypeKind.AlwaysTruthy.

(** Divides a kind into always true ([Some true]), always false
    ([Some false]) or unknown ([None], the source's [undefined]). *)
Definition triState (kind : TypeKind.t) : option bool :=
  match kind with
  | TypeKind.String | TypeKind.Number | TypeKind.Boolean | TypeKind.Enum =>
      None
  | TypeKind.Null | TypeKind.Undefined | TypeKind.FalseNumberLiteral
  | TypeKind.FalseStringLiteral | TypeKind.FalseBooleanLiteral =>
      Some false
  | TypeKind.AlwaysTruthy | TypeKind.Promise =>
      Some true
  end.

(** Fails if a kind of falsiness is not allowed. *)
Definition failureForKind (kind : TypeKind.t) (isInUnion : bool)
                          (options : Options) : option TypeFailure.t :=
  match kind with
  | TypeKind.String | TypeKind.FalseStringLiteral =>
      if allowString options then None else Some TypeFailure.String
  | TypeKind.Number | TypeKind.FalseNumberLiteral =>
      if allowNumber options then None else Some TypeFailure.Number
  | TypeKind.Enum =>
      if allowEnum options then None else Some TypeFailure.Enum
  | TypeKind.Promise =>
      Some TypeFailure.Promise
  | TypeKind.Null =>
      if isInUnion && negb (allowNullUnion options)
      then Some TypeFailure.Null else None
  | TypeKind.Undefined =>
      if isInUnion && negb (allowUndefinedUnion options)
      then Some TypeFailure.Undefined else None
  | _ => None
  end.

(** The loop of [isBooleanUndefined], with [isTruthy] as accumulator; the
    outer [None] is the early [return undefined]. *)
Fixpoint isBooleanUndefined_loop (isTruthy : bool) (tys : list TsType)
  : option bool :=
  match tys with
  | [] => Some isTruthy
  | ty :: rest =>
      if isTypeFlagSet ty TypeFlags.Boolean then
        isBooleanUndefined_loop true rest
      else if isTypeFlagSet ty TypeFlags.BooleanLiteral then
        isBooleanUndefined_loop (isTruthy || intrinsicNameIsTrue ty) rest
      else if negb (isTypeFlagSet ty
                      (N.lor TypeFlags.Void TypeFlags.Undefined)) then
        None
      else isBooleanUndefined_loop isTruthy rest
  end.

Definition isBooleanUndefined (type : TsType) : option bool :=
  isBooleanUndefined_loop false (types type).

(** The generic loop of [handleUnion]: the first member that fails wins. *)
Fixpoint handleUnion_loop (tys : list TsType) (options : Options)
  : option TypeFailure.t :=
  match tys with
  | [] => None
  | ty :: rest =>
      let kind := getKind ty in
      match failureForKind kind true options with
      | Some failure => Some failure
      | None => handleUnion_loop rest options
      end
  end.

Definition handleUnion (type : TsType) (options : Options)
  : option TypeFailure.t :=
  let generic := handleUnion_loop (types type) options in
  if allowBooleanOrUndefined options then
    match isBooleanUndefined type with
    | Some true => None
    | Some false => Some TypeFailure.AlwaysFalsy
    | None => generic
    end
  else generic.

Definition getTypeFailure (type : TsType) (options : Options)
  : option TypeFailure.t :=
  if isUnionType type then handleUnion type options
  else
    let kind := getKind type in
    match failureForKind kind false options with
    | Some failure => Some failure
    | None =>
        match triState kind with
        | Some true =>
            (* Allow 'any'. Allow 'true' itself, but not any other
               always-truthy type. *)
            if isTypeFlagSet type
                 (N.lor TypeFlags.Any TypeFlags.BooleanLiteral)
            then None else Some TypeFailure.AlwaysTruthy
        | Some false =>
            (* Allow 'false' itself, but not any other always-falsy type *)
            if isTypeFlagSet type TypeFlags.BooleanLiteral
            then None else Some TypeFailure.AlwaysFalsy
        | None => None
        end
    end.

(** ** Message formatting *)

(** A template literal prints [undefined] for a missing value. *)
Definition render (s : option string) : string :=
  match s with
  | Some s => s
  | None => "undefined"
  end.

(** The [for] loop of [stringOr] over [parts[0 .. length-2]]. *)
Fixpoint stringOr_loop (res : string) (parts : list string) : string :=
  match parts with
  | [] => res
  | part :: rest => stringOr_loop (res ++ part ++ ", ") rest
  end.

Definition stringOr (parts : list string) : string :=
  match parts with
  | [p0] => p0
  | [p0; p1] => p0 ++ " or " ++ p1
  | _ =>
      let res := stringOr_loop "" (removelast parts) in
      res ++ "or " ++ last parts "undefined"
  end.

Definition push_if (b : bool) (part : string) (parts : list string)
  : list string :=
  if b then parts ++ [part] else parts.

Definition showExpectedTypes (options : Options) : list string :=
  let parts := ["boolean"] in
  let parts := push_if (allowNullUnion options) "null-union" parts in
  let parts := push_if (allowUndefinedUnion options) "undefined-union" parts in
  let parts := push_if (allowString options) "string" parts in
  let parts := push_if (allowEnum options) "enum" parts in
  let parts := push_if (allowNumber options) "number" parts in
  push_if (allowBooleanOrUndefined options) "boolean-or-undefined" parts.

Definition showTypeFailure (ty : TypeFailure.t) (unionType : bool)
                           (strictNullChecks : bool) : string :=
  let is_ := if unionType then "could be" else "is" in
  match ty with
  | TypeFailure.AlwaysTruthy =>
      if strictNullChecks then "is always truthy"
      else "is always truthy. It may be null/undefined, but neither " ++
           "'" ++ OPTION_ALLOW_NULL_UNION ++ "' nor '" ++
           OPTION_ALLOW_UNDEFINED_UNION ++ "' is set"
  | TypeFailure.AlwaysFalsy => "is always falsy"
  | TypeFailure.String => is_ ++ " a string"
  | TypeFailure.Number => is_ ++ " a number"
  | TypeFailure.Null => is_ ++ " null"
  | TypeFailure.Undefined => is_ ++ " undefined"
  | TypeFailure.Enum => is_ ++ " an enum"
  | TypeFailure.Promise => "promise handled as boolean expression"
  | TypeFailure.Mixes => "unions more than one truthy/falsy type"
  end.

(** ** The syntax tree *)

(** [ts.SyntaxKind]: the kinds the rule names, and some of the others. *)
Module SyntaxKind.
Inductive t : Set :=
| ExclamationToken | MinusToken | PlusToken | TildeToken
| AmpersandAmpersandToken | BarBarToken | EqualsEqualsEqualsToken
| EqualsToken | QuestionToken | ColonToken
| Identifier | TrueKeyword | FalseKeyword | NumericLiteral | StringLiteral
| ParenthesizedExpression | CallExpression
| ExpressionStatement | Block | EmptyStatement | SourceFile
| PrefixUnaryExpression | BinaryExpression | ConditionalExpression
| IfStatement | DoStatement | WhileStatement | ForStatement.

Definition eq_dec (a b : t) : {a = b} + {a <> b}.
Proof. decide equality. Defined.

Definition eqb (a b : t) : bool := if eq_dec a b then true else false.
End SyntaxKind.

(** A [ts.Node].  The seven kinds the rule looks into carry their named
    children, in the order [ts.forEachChild] visits them; [Generic] stands for
    a node of any other kind (tokens, identifiers, blocks, the source file,
    ...) with its source text and its children in that order. *)
Inductive Node : Type :=
| PrefixUnaryExpression (operator : SyntaxKind.t) (operand : Node)
| BinaryExpression (left operatorToken right : Node)
| ConditionalExpression
    (condition questionToken whenTrue colonToken whenFalse : Node)
| IfStatement (expression thenStatement : Node) (elseStatement : option Node)
| DoStatement (statement expression : Node)
| WhileStatement (expression statement : Node)
| ForStatement (initializer condition incrementor : option Node)
               (statement : Node)
| Generic (kind : SyntaxKind.t) (text : string) (children : list Node).

(** [node.kind] *)
Definition kind (node : Node) : SyntaxKind.t :=
  match node with
  | PrefixUnaryExpression _ _ => SyntaxKind.PrefixUnaryExpression
  | BinaryExpression _ _ _ => SyntaxKind.BinaryExpression
  | ConditionalExpression _ _ _ _ _ => SyntaxKind.ConditionalExpression
  | IfStatement _ _ _ => SyntaxKind.IfStatement
  | DoStatement _ _ => SyntaxKind.DoStatement
  | WhileStatement _ _ => SyntaxKind.WhileStatement
  | ForStatement _ _ _ _ => SyntaxKind.ForStatement
  | Generic k _ _ => k
  end.

(** A node object is identified by its position: the child slots to follow
    from the root.  Slots are numbered in [ts.forEachChild] order, an absent
    optional child keeping its slot. *)
Definition path : Set := list nat.

(** Only ever applied to a binary expression; [None] is the source's
    [undefined]. *)
Definition binaryBooleanExpressionKind (node : Node) : option string :=
  match node with
  | BinaryExpression _ operatorToken _ =>
      match kind operatorToken with
      | SyntaxKind.AmpersandAmpersandToken => Some "&&"
      | SyntaxKind.BarBarToken => Some "||"
      | _ => None
      end
  | _ => None
  end.

Definition showLocation (n : Node) : option string :=
  match n with
  | PrefixUnaryExpression _ _ => Some "operand for the '!' operator"
  | ConditionalExpression _ _ _ _ _ => Some "condition"
  | ForStatement _ _ _ _ => Some "'for' condition"
  | IfStatement _ _ _ => Some "'if' condition"
  | WhileStatement _ _ => Some "'while' condition"
  | DoStatement _ _ => Some "'do-while' condition"
  | BinaryExpression _ _ _ =>
      Some ("operand for the '" ++ render (binaryBooleanExpressionKind n) ++
            "' operator")%string
  | Generic _ _ _ => None
  end.

Definition showFailure (location : Node) (ty : TypeFailure.t)
                       (unionType : bool) (options : Options) : string :=
  let expectedTypes := showExpectedTypes options in
  let expected :=
    match expectedTypes with
    | [only] => ("Only " ++ only ++ "s are allowed")%string
    | _ => ("Allowed types are " ++ stringOr expectedTypes)%string
    end in
  let tyFail := showTypeFailure ty unionType (strictNullChecks options) in
  ("This type is not allowed in the " ++ render (showLocation location) ++
   " because it " ++ tyFail ++ ". " ++ expected ++ ".")%string.

(** ** The rule *)

(** What [context.report] receives: the checked node and the message. *)
Record Report : Type :=
  MkReport {
    report_node : path;
    report_message : string
  }.

(** [checker.getTypeAtLocation], asked about the node object at a position. *)
Record TypeChecker : Type :=
  MkTypeChecker {
    getTypeAtLocation : path -> Node -> TsType
  }.

(** The rule's side effect: [context.report] appends to the reports made so
    far. *)
Definition Effect : Type := list Report -> list Report.

(** A callback handed to typescript's [ts.forEachChild], or a run of
    [ts.forEachChild] itself: besides its effect it returns a value.
    [ts.forEachChild] calls the callback on each child in turn and stops at
    the first truthy answer ([Some tt]), which it returns; otherwise it
    returns [undefined] ([None]). *)
Definition Visit : Type := list Report -> option unit * list Report.

Definition andThen (v w : Visit) : Visit :=
  fun out =>
    match v out with
    | (Some r, out') => (Some r, out')
    | (None, out') => w out'
    end.

Definition finished : Visit := fun out => (None, out).

Definition ifPresent (v : Node -> Visit) (child : option Node) : Visit :=
  match child with
  | Some c => v c
  | None => finished
  end.

Section Rule.

Variable options : Options.
Variable checker : TypeChecker.

Definition checkExpression (p : path) (node location : Node) : Effect :=
  fun out =>
    let type := getTypeAtLocation checker p node in
    match getTypeFailure type options with
    | Some failure =>
        if TypeFailure.eqb failure TypeFailure.AlwaysTruthy &&
           negb (strictNullChecks options) &&
           (allowNullUnion options || allowUndefinedUnion options)
        then (* OK; It might be null/undefined. *) out
        else out ++ [ {| report_node := p;
                         report_message :=
                           showFailure location failure (isUnionType type)
                                       options |} ]
    | None => out
    end.

(** The [switch (node.kind)] of the callback [cb], for the node at [p]. *)
Definition cb_switch (p : path) (node : Node) : Effect :=
  match node with
  | PrefixUnaryExpression operator operand =>
      if SyntaxKind.eqb operator SyntaxKind.ExclamationToken
      then checkExpression (p ++ [0]) operand node
      else fun out => out
  | IfStatement expression _ _ => checkExpression (p ++ [0]) expression node
  | WhileStatement expression _ => checkExpression (p ++ [0]) expression node
  | DoStatement _ expression => checkExpression (p ++ [1]) expression node
  | ConditionalExpression condition _ _ _ _ =>
      checkExpression (p ++ [0]) condition node
  | ForStatement _ (Some condition) _ _ =>
      checkExpression (p ++ [1]) condition node
  | _ => fun out => out
  end.

(** [ts.forEachChild(node, cb)] for the node at [p], where
    [cb(child) = (switch ...; return ts.forEachChild(child, cb))]. *)
Fixpoint forEachChild_cb (p : path) (node : Node) {struct node} : Visit :=
  let cb (i : nat) (child : Node) : Visit :=
    fun out => forEachChild_cb (p ++ [i]) child
                 (cb_switch (p ++ [i]) child out) in
  match node with
  | PrefixUnaryExpression _ operand => cb 0 operand
  | BinaryExpression left_ operatorToken right_ =>
      andThen (cb 0 left_) (andThen (cb 1 operatorToken) (cb 2 right_))
  | ConditionalExpression condition questionToken whenTrue colonToken
                          whenFalse =>
      andThen (cb 0 condition) (andThen (cb 1 questionToken)
        (andThen (cb 2 whenTrue) (andThen (cb 3 colonToken)
          (cb 4 whenFalse))))
  | IfStatement expression thenStatement elseStatement =>
      andThen (cb 0 expression) (andThen (cb 1 thenStatement)
        (ifPresent (cb 2) elseStatement))
  | DoStatement statement expression =>
      andThen (cb 0 statement) (cb 1 expression)
  | WhileStatement expression statement =>
      andThen (cb 0 expression) (cb 1 statement)
  | ForStatement initializer condition incrementor statement =>
      andThen (ifPresent (cb 0) initializer)
        (andThen (ifPresent (cb 1) condition)
          (andThen (ifPresent (cb 2) incrementor) (cb 3 statement)))
  | Generic _ _ children =>
      (fix each (i : nat) (nodes : list Node) {struct nodes} : Visit :=
         match nodes with
         | [] => finished
         | child :: rest => andThen (cb i child) (each (S i) rest)
         end) 0 children
  end.

Definition cb (p : path) (node : Node) : Visit :=
  fun out => forEachChild_cb p node (cb_switch p node out).

Definition walk (sourceFile : Node) : list Report :=
  snd (forEachChild_cb [] sourceFile []).

End Rule.

(** [ts.CompilerOptions], the project's compiler configuration. *)
Module CompilerOptions.
Record t : Type := Mk { strictNullChecks : bool }.
End CompilerOptions.

(** [ts.Program], reached through [context.parserServices.program]. *)
Record Program : Type :=
  MkProgram {
    getCompilerOptions : CompilerOptions.t;
    getTypeChecker : TypeChecker
  }.

(** The rule context handed to [create] by the linter. *)
Record RuleContext : Type :=
  MkRuleContext {
    context_options : list (list string);
    parserServices_program : Program
  }.

(** [context.options[0] || [...]]: an array, even an empty one, is truthy. *)
Definition rawOptions (context : RuleContext) : list string :=
  match context_options context with
  | configured :: _ => configured
  | [] => ["allow-null-union"; "allow-undefined-union";
           "allow-boolean-or-undefined"]
  end.

(** The [options] constant of [create]. *)
Definition resolvedOptions (context : RuleContext) : Options :=
  parseOptions (rawOptions context) true.

(** [create(context)] returns the ['Program'] listener; the listener is given
    the source file and the result is what it hands to [context.report]. *)
Definition create (context : RuleContext) : Node -> list Report :=
  let program := parserServices_program context in
  let options := resolvedOptions context in
  let checker := getTypeChecker program in
  fun sourceFile => walk options checker sourceFile.

(** ** Positions in the tree *)

(** The child in slot [i] of a node. *)
Definition child (node : Node) (i : nat) : option Node :=
  match node, i with
  | PrefixUnaryExpression _ operand, 0 => Some operand
  | BinaryExpression left_ _ _, 0 => Some left_
  | BinaryExpression _ operatorToken _, 1 => Some operatorToken
  | BinaryExpression _ _ right_, 2 => Some right_
  | ConditionalExpression condition _ _ _ _, 0 => Some condition
  | ConditionalExpression _ questionToken _ _ _, 1 => Some questionToken
  | ConditionalExpression _ _ whenTrue _ _, 2 => Some whenTrue
  | ConditionalExpression _ _ _ colonToken _, 3 => Some colonToken
  | ConditionalExpression _ _ _ _ whenFalse, 4 => Some whenFalse
  | IfStatement expression _ _, 0 => Some expression
  | IfStatement _ thenStatement _, 1 => Some thenStatement
  | IfStatement _ _ elseStatement, 2 => elseStatement
  | DoStatement statement _, 0 => Some statement
  | DoStatement _ expression, 1 => Some expression
  | WhileStatement expression _, 0 => Some expression
  | WhileStatement _ statement, 1 => Some statement
  | ForStatement initializer _ _ _, 0 => initializer
  | ForStatement _ condition _ _, 1 => condition
  | ForStatement _ _ incrementor _, 2 => incrementor
  | ForStatement _ _ _ statement, 3 => Some statement
  | Generic _ _ children, _ => nth_error children i
  | _, _ => None
  end.

(** The node at a position below [root]. *)
Fixpoint nodeAt (root : Node) (p : path) : option Node :=
  match p with
  | [] => Some root
  | i :: rest =>
      match child root i with
      | Some c => nodeAt c rest
      | None => None
      end
  end.

(** The slot of the expression that [cb]'s switch checks at a node. *)
Definition checkedSlot (location : Node) : option nat :=
  match location with
  | PrefixUnaryExpression operator _ =>
      if SyntaxKind.eqb operator SyntaxKind.ExclamationToken
      then Some 0 else None
  | IfStatement _ _ _ => Some 0
  | WhileStatement _ _ => Some 0
  | DoStatement _ _ => Some 1
  | ConditionalExpression _ _ _ _ _ => Some 0
  | ForStatement _ (Some _) _ _ => Some 1
  | _ => None
  end.

(** A report [r] made below the node [node] at position [p]: it is about the
    checked slot of one of [node]'s proper descendants. *)
Definition reportedBelow (p : path) (node : Node) (r : Report) : Prop :=
  exists (q : path) (location : Node) (i : nat),
    q <> [] /\
    nodeAt node q = Some location /\
    checkedSlot location = Some i /\
    report_node r = p ++ q ++ [i].

(** A visit that runs to its end, adding only reports made below [node]. *)
Definition runsBelow (p : path) (node : Node) (v : Visit) : Prop :=
  forall out, exists rs,
    v out = (None, out ++ rs) /\ Forall (reportedBelow p node) rs.

(** Induction over nodes, through optional children and child lists. *)
Section NodeInduction.

Variable P : Node -> Prop.

Definition POpt (o : option Node) : Prop :=
  match o with
  | Some n => P n
  | None => True
  end.

Hypothesis HPrefix : forall operator operand,
  P operand -> P (PrefixUnaryExpression operator operand).
Hypothesis HBinary : forall l tok r,
  P l -> P tok -> P r -> P (BinaryExpression l tok r).
Hypothesis HConditional : forall c q t k f,
  P c -> P q -> P t -> P k -> P f -> P (ConditionalExpression c q t k f).
Hypothesis HIf : forall e t el,
  P e -> P t -> POpt el -> P (IfStatement e t el).
Hypothesis HDo : forall s e, P s -> P e -> P (DoStatement s e).
Hypothesis HWhile : forall e s, P e -> P s -> P (WhileStatement e s).
Hypothesis HFor : forall i c n s,
  POpt i -> POpt c -> POpt n -> P s -> P (ForStatement i c n s).
Hypothesis HGeneric : forall k text children,
  Forall P children -> P (Generic k text children).

Fixpoint Node_induction (n : Node) : P n :=
  let opt (o : option Node) : POpt o :=
    match o return POpt o with
    | Some c => Node_induction c
    | None => I
    end in
  match n return P n with
  | PrefixUnaryExpression operator operand =>
      @HPrefix operator operand (Node_induction operand)
  | BinaryExpression l tok r =>
      @HBinary l tok r (Node_induction l) (Node_induction tok)
               (Node_induction r)
  | ConditionalExpression c q t k f =>
      @HConditional c q t k f (Node_induction c) (Node_induction q)
                    (Node_induction t) (Node_induction k) (Node_induction f)
  | IfStatement e t el =>
      @HIf e t el (Node_induction e) (Node_induction t) (opt el)
  | DoStatement s e => @HDo s e (Node_induction s) (Node_induction e)
  | WhileStatement e s => @HWhile e s (Node_induction e) (Node_induction s)
  | ForStatement i c n' s =>
      @HFor i c n' s (opt i) (opt c) (opt n') (Node_induction s)
  | Generic k text children =>
      @HGeneric k text children
        ((fix all (l : list Node) : Forall P l :=
            match l return Forall P l with
            | [] => Forall_nil P
            | x :: rest => Forall_cons x (Node_induction x) (all rest)
            end) children)
  end.

End NodeInduction.

(** A union type with the given members, in that order. *)
Definition unionOf (members : list TsType) : TsType :=
  MkType TypeFlags.Union None None None members.

(** A union member that the generic loop of [handleUnion] lets pass. *)
Definition memberPasses (options : Options) (ty : TsType) : Prop :=
  failureForKind (getKind ty) true options = None.

(** A union member at which the loop of [isBooleanUndefined] gives up. *)
Definition notBooleanOrUndefined (ty : TsType) : bool :=
  negb (isTypeFlagSet ty TypeFlags.Boolean) &&
  negb (isTypeFlagSet ty TypeFlags.BooleanLiteral) &&
  negb (isTypeFlagSet ty (N.lor TypeFlags.Void TypeFlags.Undefined)).

(** ** Sample types, trees and projects *)

Module Sample.

Definition intrinsic (f : N) (name : string) : TsType :=
  MkType f None (Some name) None [].

Definition anyType : TsType := intrinsic TypeFlags.Any "any".
Definition errorType : TsType := intrinsic TypeFlags.Any "error".
Definition stringType : TsType := intrinsic TypeFlags.String "string".
Definition numberType : TsType := intrinsic TypeFlags.Number "number".
Definition undefinedType : TsType :=
  intrinsic TypeFlags.Undefined "undefined".
Definition voidType : TsType := intrinsic TypeFlags.Void "void".
Definition nullType : TsType := intrinsic TypeFlags.Null "null".
Definition trueType : TsType := intrinsic TypeFlags.BooleanLiteral "true".
Definition falseType : TsType := intrinsic TypeFlags.BooleanLiteral "false".

(** A plain boolean as one type description (the shape the [Boolean] tests of
    [getKind] and [isBooleanUndefined] look for). *)
Definition plainBoolean : TsType := intrinsic TypeFlags.Boolean "boolean".

(** [boolean] as the checker builds it: the union [false | true], flagged
    [Boolean] as well. *)
Definition booleanType : TsType :=
  MkType (N.lor TypeFlags.Boolean TypeFlags.Union) None (Some "boolean") None
         [falseType; trueType].

(** The empty-string literal type and the zero literal type. *)
Definition emptyStringLiteral : TsType :=
  MkType TypeFlags.StringLiteral None None (Some (StringValue "")) [].
Definition zeroLiteral : TsType :=
  MkType TypeFlags.NumberLiteral None None (Some (NumberValue 0%Z)) [].

Definition objectNamed (name : string) : TsType :=
  MkType TypeFlags.Object (Some name) None None [].
Definition promiseType : TsType := objectNamed "Promise".
Definition someObject : TsType := objectNamed "SomeObject".

(** [boolean | undefined], as two member descriptions in either order, and
    as the checker flattens it ([undefined | false | true]). *)
Definition booleanOrUndefined : TsType := unionOf [plainBoolean; undefinedType].
Definition undefinedOrBoolean : TsType := unionOf [undefinedType; plainBoolean].
Definition booleanOrUndefined_flat : TsType :=
  unionOf [undefinedType; falseType; trueType].

Definition identifier (name : string) : Node :=
  Generic SyntaxKind.Identifier name [].
Definition token (k : SyntaxKind.t) (text : string) : Node :=
  Generic k text [].
Definition expressionStatement (e : Node) : Node :=
  Generic SyntaxKind.ExpressionStatement "" [e].
Definition block (statements : list Node) : Node :=
  Generic SyntaxKind.Block "" statements.
Definition sourceFile (statements : list Node) : Node :=
  Generic SyntaxKind.SourceFile "" statements.

Fixpoint lookup (name : string) (env : list (string * TsType)) : TsType :=
  match env with
  | [] => errorType
  | (x, ty) :: rest => if String.eqb x name then ty else lookup name rest
  end.

(** A checker that knows the declared type of each identifier. *)
Definition checkerOf (env : list (string * TsType)) : TypeChecker :=
  MkTypeChecker
    (fun _ node =>
       match node with
       | Generic SyntaxKind.Identifier name _ => lookup name env
       | _ => errorType
       end).

Definition project (strict : bool) (env : list (string * TsType))
                   (configured : list (list string)) : RuleContext :=
  MkRuleContext configured
    (MkProgram (CompilerOptions.Mk strict) (checkerOf env)).

(** [a && b;] with [a : string] and [b : number]. *)
Definition a_and_b : Node :=
  BinaryExpression (identifier "a")
                   (token SyntaxKind.AmpersandAmpersandToken "&&")
                   (identifier "b").
Definition a_and_b_file : Node := sourceFile [expressionStatement a_and_b].
Definition a_and_b_env : list (string * TsType) :=
  [("a", stringType); ("b", numberType)].

(** [if (obj) {}] with [obj : SomeObject]. *)
Definition if_obj_file : Node :=
  sourceFile [IfStatement (identifier "obj") (block []) None].
Definition if_obj_env : list (string * TsType) := [("obj", someObject)].

(** A project without strict null checks, configured with
    [["allow-null-union"]], that holds [if (obj) {}]. *)
Definition nonStrictProject : RuleContext :=
  project false if_obj_env [["allow-null-union"]].

(** [if (s) { flag || x; }] with [s : string], [flag : boolean] and
    [x : any]. *)
Definition flag_or_x : Node :=
  BinaryExpression (identifier "flag") (token SyntaxKind.BarBarToken "||")
                   (identifier "x").
Definition if_s_flag_or_x_file : Node :=
  sourceFile [IfStatement (identifier "s")
                          (block [expressionStatement flag_or_x]) None].
Definition if_s_flag_or_x_env : list (string * TsType) :=
  [("s", stringType); ("flag", plainBoolean); ("x", anyType)].

End Sample.

(** ** Vocabulary of the further properties *)

(** The eight names [parseOptions] looks for. *)
Definition recognisedOptions : list string :=
  [OPTION_ALLOW_NULL_UNION; OPTION_ALLOW_UNDEFINED_UNION;
   OPTION_ALLOW_STRING; OPTION_ALLOW_ENUM; OPTION_ALLOW_NUMBER;
   OPTION_ALLOW_MIX; OPTION_ALLOW_BOOLEAN_OR_UNDEFINED;
   OPTION_ALLOW_ANY_RHS].

(** The six names whose toggle some function reads after [parseOptions]. *)
Definition effectiveOptions : list string :=
  [OPTION_ALLOW_NULL_UNION; OPTION_ALLOW_UNDEFINED_UNION;
   OPTION_ALLOW_STRING; OPTION_ALLOW_ENUM; OPTION_ALLOW_NUMBER;
   OPTION_ALLOW_BOOLEAN_OR_UNDEFINED].

(** A union member that raises [isTruthy] in the loop of
    [isBooleanUndefined]. *)
Definition truthyMember (ty : TsType) : bool :=
  isTypeFlagSet ty TypeFlags.Boolean ||
  (isTypeFlagSet ty TypeFlags.BooleanLiteral && intrinsicNameIsTrue ty).

(** [weaker options options']: [options'] allows whatever [options] allows,
    the boolean-or-undefined special case being the same in both. *)
Definition weaker (options options' : Options) : Prop :=
  allowBooleanOrUndefined options = allowBooleanOrUndefined options' /\
  (allowNullUnion options = true -> allowNullUnion options' = true) /\
  (allowUndefinedUnion options = true ->
   allowUndefinedUnion options' = true) /\
  (allowString options = true -> allowString options' = true) /\
  (allowEnum options = true -> allowEnum options' = true) /\
  (allowNumber options = true -> allowNumber options' = true).

(** The guard of [checkExpression] under which a failure is dropped. *)
Definition suppressed (options : Options) (failure : TypeFailure.t) : bool :=
  TypeFailure.eqb failure TypeFailure.AlwaysTruthy &&
  negb (strictNullChecks options) &&
  (allowNullUnion options || allowUndefinedUnion options).

(** A boolean-context site of a file: the node [e] in the checked slot [i] of
    a node [location] that lies at position [q] below the root. *)
Definition isSite (sourceFile : Node) (q : path) (location : Node)
                  (i : nat) (e : Node) : Prop :=
  q <> [] /\
  nodeAt sourceFile q = Some location /\
  checkedSlot location = Some i /\
  child location i = Some e.

(** The report [checkExpression] makes of a failure of the node [e] at
    [p]. *)
Definition reportFor (options : Options) (checker : TypeChecker)
                     (p : path) (e location : Node)
                     (failure : TypeFailure.t) : Report :=
  MkReport p
    (showFailure location failure
                 (isUnionType (getTypeAtLocation checker p e)) options).

(** A report made by [cb]'s switch at [node] or at one of its descendants,
    [node] lying at [p]. *)
Definition reportedFrom (options : Options) (checker : TypeChecker)
                        (p : path) (node : Node) (r : Report) : Prop :=
  exists (q : path) (location : Node),
    nodeAt node q = Some location /\
    In r (cb_switch options checker (p ++ q) location []).

(** A report made through the child in slot [j] of the node at [p]. *)
Definition slotReport (options : Options) (checker : TypeChecker)
                      (p : path) (node : Node) (j : nat) (r : Report)
  : Prop :=
  exists c, child node j = Some c /\
            reportedFrom options checker (p ++ [j]) c r.

(** A visit that runs to its end and adds exactly the reports made through
    the slots [lo .. hi-1] of [node], none of them twice for one node. *)
Definition runsSlots (options : Options) (checker : TypeChecker)
                     (p : path) (node : Node) (lo hi : nat) (v : Visit)
  : Prop :=
  forall out, exists rs,
    v out = (None, out ++ rs) /\
    (forall r, In r rs <->
               exists j, lo <= j < hi /\
                         slotReport options checker p node j r) /\
    NoDup (map report_node rs).

(** A visit that runs to its end and adds exactly the reports made through
    the children of [node], none of them twice for one node. *)
Definition runsAll (options : Options) (checker : TypeChecker)
                   (p : path) (node : Node) (v : Visit) : Prop :=
  forall out, exists rs,
    v out = (None, out ++ rs) /\
    (forall r, In r rs <-> exists j, slotReport options checker p node j r) /\
    NoDup (map report_node rs).

(** The location phrases of the six kinds of node [cb]'s switch checks. *)
Definition checkedLocationPhrases : list string :=
  ["operand for the '!' operator"; "condition"; "'for' condition";
   "'if' condition"; "'while' condition"; "'do-while' condition"].

(** * Properties *)

(** ** Classification *)

Ltac split_ifs :=
  repeat match goal with
         | |- context [if ?b then _ else _] => destruct b eqn:?
         end.

Lemma getKind_cases (type : TsType) :
  getKind type = TypeKind.String \/ getKind type = TypeKind.Number \/
  getKind type = TypeKind.Boolean \/ getKind type = TypeKind.Promise \/
  getKind type = TypeKind.Null \/ getKind type = TypeKind.Undefined \/
  getKind type = TypeKind.Enum \/ getKind type = TypeKind.AlwaysTruthy \/
  getKind type = TypeKind.FalseBooleanLiteral.
Proof.
  unfold getKind. split_ifs; tauto.
Qed.

Lemma getKind_Promise_flags (type : TsType) :
  getKind type = TypeKind.Promise ->
  isTypeFlagSet type TypeFlags.Boolean = false /\
  isObject type "Promise" = true.
Proof.
  unfold getKind. split_ifs; intros H; try discriminate H; auto.
Qed.

Lemma getKind_Undefined_flags (type : TsType) :
  getKind type = TypeKind.Undefined ->
  isTypeFlagSet type TypeFlags.Boolean = false /\
  isTypeFlagSet type (N.lor TypeFlags.Void TypeFlags.Undefined) = true.
Proof.
  unfold getKind. split_ifs; intros H; try discriminate H; auto.
Qed.

(** C4, as the code has it: [getKind] maps every string-like type, the
    empty-string literal type included, to [String], and every number-like
    type that is not string-like, the zero literal type included, to
    [Number]; it never answers [FalseStringLiteral] or
    [FalseNumberLiteral]. *)
Theorem getKind_string_like_number_like (type : TsType) :
  (isTypeFlagSet type TypeFlags.StringLike = true ->
   getKind type = TypeKind.String) /\
  (isTypeFlagSet type TypeFlags.StringLike = false ->
   isTypeFlagSet type TypeFlags.NumberLike = true ->
   getKind type = TypeKind.Number) /\
  getKind type <> TypeKind.FalseStringLiteral /\
  getKind type <> TypeKind.FalseNumberLiteral.
Proof.
  repeat split.
  - intros H. unfold getKind. now rewrite H.
  - intros H1 H2. unfold getKind. now rewrite H1, H2.
  - destruct (getKind_cases type) as [H|[H|[H|[H|[H|[H|[H|[H|H]]]]]]]];
      rewrite H; discriminate.
  - destruct (getKind_cases type) as [H|[H|[H|[H|[H|[H|[H|[H|H]]]]]]]];
      rewrite H; discriminate.
Qed.

Lemma getKind_string_like_number_like_witness :
  getKind Sample.emptyStringLiteral = TypeKind.String /\
  getKind Sample.zeroLiteral = TypeKind.Number.
Proof.
  split.
  - apply (proj1 (getKind_string_like_number_like Sample.emptyStringLiteral)).
    reflexivity.
  - apply (proj1 (proj2 (getKind_string_like_number_like Sample.zeroLiteral)));
      reflexivity.
Defined.

(** C4, as the claim has it, fails: the empty-string literal type is
    classified [String] and the zero literal type [Number]. *)
Lemma getKind_false_literals_counterexample :
  value Sample.emptyStringLiteral = Some (StringValue "") /\
  getKind Sample.emptyStringLiteral <> TypeKind.FalseStringLiteral /\
  value Sample.zeroLiteral = Some (NumberValue 0%Z) /\
  getKind Sample.zeroLiteral <> TypeKind.FalseNumberLiteral.
Proof.
  repeat split; try reflexivity; vm_compute; discriminate.
Qed.

(** ** Failure determination *)

Lemma isUnionType_unionOf (members : list TsType) :
  isUnionType (unionOf members) = true.
Proof. reflexivity. Qed.

Lemma failureForKind_not_Mixes kind isInUnion options :
  failureForKind kind isInUnion options <> Some TypeFailure.Mixes.
Proof.
  unfold failureForKind. destruct kind; split_ifs; discriminate.
Qed.

Lemma handleUnion_loop_first options pre ty post failure :
  Forall (memberPasses options) pre ->
  failureForKind (getKind ty) true options = Some failure ->
  handleUnion_loop (pre ++ ty :: post) options = Some failure.
Proof.
  intros Hpre Hty. induction Hpre as [|m pre Hm _ IH]; simpl.
  - now rewrite Hty.
  - unfold memberPasses in Hm. now rewrite Hm.
Qed.

Lemma handleUnion_loop_pass options tys :
  Forall (memberPasses options) tys ->
  handleUnion_loop tys options = None.
Proof.
  induction 1 as [|m tys Hm _ IH]; simpl; [reflexivity|].
  unfold memberPasses in Hm. now rewrite Hm.
Qed.

Lemma handleUnion_loop_member options tys ty failure :
  In ty tys ->
  failureForKind (getKind ty) true options = Some failure ->
  exists f, handleUnion_loop tys options = Some f.
Proof.
  induction tys as [|m tys IH]; simpl; [tauto|].
  intros [->|Hin] Hty.
  - rewrite Hty. eauto.
  - destruct (failureForKind (getKind m) true options); eauto.
Qed.

Lemma handleUnion_loop_not_Mixes options tys :
  handleUnion_loop tys options <> Some TypeFailure.Mixes.
Proof.
  induction tys as [|m tys IH]; simpl; [discriminate|].
  destruct (failureForKind (getKind m) true options) eqn:E; [|exact IH].
  rewrite <- E. apply failureForKind_not_Mixes.
Qed.

(** The loop of [isBooleanUndefined] gives up exactly when some member is
    neither boolean, nor a boolean literal, nor void or undefined. *)
Lemma isBooleanUndefined_loop_None isTruthy tys :
  isBooleanUndefined_loop isTruthy tys = None <->
  existsb notBooleanOrUndefined tys = true.
Proof.
  revert isTruthy. induction tys as [|ty tys IH]; intros isTruthy; simpl.
  - split; discriminate.
  - unfold notBooleanOrUndefined at 1.
    destruct (isTypeFlagSet ty TypeFlags.Boolean); simpl; [apply IH|].
    destruct (isTypeFlagSet ty TypeFlags.BooleanLiteral); simpl; [apply IH|].
    destruct (isTypeFlagSet ty _); simpl; [apply IH|tauto].
Qed.

(** Without a boolean or a boolean-literal member the accumulator of the loop
    is never raised. *)
Lemma isBooleanUndefined_loop_all_undefined isTruthy tys :
  Forall (fun ty =>
            isTypeFlagSet ty TypeFlags.Boolean = false /\
            isTypeFlagSet ty TypeFlags.BooleanLiteral = false /\
            isTypeFlagSet ty (N.lor TypeFlags.Void TypeFlags.Undefined)
              = true) tys ->
  isBooleanUndefined_loop isTruthy tys = Some isTruthy.
Proof.
  induction 1 as [|ty tys (Hb & Hl & Hu) _ IH];
    cbn [isBooleanUndefined_loop]; [reflexivity|].
  now rewrite Hb, Hl, Hu.
Qed.

Lemma handleUnion_generic type options :
  allowBooleanOrUndefined options = false \/ isBooleanUndefined type = None ->
  handleUnion type options = handleUnion_loop (types type) options.
Proof.
  unfold handleUnion. intros [H|H]; rewrite H; [reflexivity|].
  now destruct (allowBooleanOrUndefined options).
Qed.

Lemma handleUnion_not_Mixes type options :
  handleUnion type options <> Some TypeFailure.Mixes.
Proof.
  unfold handleUnion.
  destruct (allowBooleanOrUndefined options);
    [destruct (isBooleanUndefined type) as [[|]|]|];
    try discriminate; apply handleUnion_loop_not_Mixes.
Qed.

(** C5, as the code has it: for [boolean | undefined], whichever way the
    union lists its members, the options [["allow-boolean-or-undefined"]] give
    no failure, and so do the options that leave [allow-boolean-or-undefined]
    out but keep the default [allow-null-union] and [allow-undefined-union];
    [Undefined] is the failure once [allow-undefined-union] is left out as
    well. *)
Theorem boolean_or_undefined_scenario :
  Forall (fun type =>
            isUnionType type = true /\
            getTypeFailure type
              (parseOptions ["allow-boolean-or-undefined"] true) = None /\
            getTypeFailure type
              (parseOptions ["allow-null-union"; "allow-undefined-union"] true)
              = None /\
            getTypeFailure type (parseOptions ["allow-null-union"] true)
              = Some TypeFailure.Undefined)
         [Sample.booleanOrUndefined; Sample.undefinedOrBoolean;
          Sample.booleanOrUndefined_flat].
Proof.
  repeat constructor.
Qed.

(** C5, as the claim has it, fails: with [allow-boolean-or-undefined] unset
    and the default null-union and undefined-union exceptions in place the
    failure is not [Undefined]; there is none. *)
Lemma boolean_or_undefined_counterexample :
  getTypeFailure Sample.booleanOrUndefined
    (parseOptions ["allow-null-union"; "allow-undefined-union"] true)
  <> Some TypeFailure.Undefined.
Proof.
  vm_compute. discriminate.
Qed.

(** C6: for a union to which the boolean-or-undefined special case does not
    apply, the failure is that of the first member, in the order of the
    union, whose kind fails with [isInUnion = true], and there is no failure
    when no member fails; so for two members that fail differently, the
    reported failure follows the order of the members. *)
Theorem union_failure_is_first_failing_member (options : Options) :
  (forall U : TsType,
      isUnionType U = true ->
      allowBooleanOrUndefined options = false \/ isBooleanUndefined U = None ->
      (forall pre ty post failure,
          types U = pre ++ ty :: post ->
          Forall (memberPasses options) pre ->
          failureForKind (getKind ty) true options = Some failure ->
          getTypeFailure U options = Some failure) /\
      (Forall (memberPasses options) (types U) ->
       getTypeFailure U options = None)) /\
  (forall (a b : TsType) (fa fb : TypeFailure.t),
      failureForKind (getKind a) true options = Some fa ->
      failureForKind (getKind b) true options = Some fb ->
      fa <> fb ->
      allowBooleanOrUndefined options = false \/
      isBooleanUndefined (unionOf [a; b]) = None ->
      getTypeFailure (unionOf [a; b]) options = Some fa /\
      getTypeFailure (unionOf [b; a]) options = Some fb /\
      getTypeFailure (unionOf [a; b]) options
        <> getTypeFailure (unionOf [b; a]) options).
Proof.
  split.
  - intros U HU Hspecial. unfold getTypeFailure. rewrite HU.
    rewrite (handleUnion_generic _ _ Hspecial). split.
    + intros pre ty post failure -> Hpre Hty.
      now apply handleUnion_loop_first.
    + apply handleUnion_loop_pass.
  - intros a b fa fb Ha Hb Hne Hspecial.
    assert (Hswap : allowBooleanOrUndefined options = false \/
                    isBooleanUndefined (unionOf [b; a]) = None).
    { destruct Hspecial as [H|H]; [now left|right].
      unfold isBooleanUndefined in *. simpl types in *.
      apply isBooleanUndefined_loop_None.
      apply isBooleanUndefined_loop_None in H.
      simpl in *. rewrite orb_false_r in *. now rewrite orb_comm. }
    unfold getTypeFailure. rewrite !isUnionType_unionOf.
    rewrite (handleUnion_generic _ _ Hspecial), (handleUnion_generic _ _ Hswap).
    simpl. rewrite Ha, Hb. repeat split; congruence.
Qed.

Lemma union_failure_is_first_failing_member_witness :
  getTypeFailure (unionOf [Sample.undefinedType; Sample.stringType;
                           Sample.numberType])
                 (parseOptions ["allow-undefined-union"] true)
    = Some TypeFailure.String /\
  getTypeFailure (unionOf [Sample.undefinedType; Sample.plainBoolean])
                 (parseOptions ["allow-undefined-union"] true) = None /\
  getTypeFailure (unionOf [Sample.stringType; Sample.numberType])
                 (parseOptions [] true) = Some TypeFailure.String /\
  getTypeFailure (unionOf [Sample.numberType; Sample.stringType])
                 (parseOptions [] true) = Some TypeFailure.Number.
Proof.
  split; [|split].
  - apply (proj1 (proj1 (union_failure_is_first_failing_member
                           (parseOptions ["allow-undefined-union"] true))
                        (unionOf [Sample.undefinedType; Sample.stringType;
                                  Sample.numberType])
                        eq_refl (or_introl eq_refl))
                 [Sample.undefinedType] Sample.stringType
                 [Sample.numberType] TypeFailure.String eq_refl).
    + repeat constructor.
    + reflexivity.
  - apply (proj2 (proj1 (union_failure_is_first_failing_member
                           (parseOptions ["allow-undefined-union"] true))
                        (unionOf [Sample.undefinedType; Sample.plainBoolean])
                        eq_refl (or_introl eq_refl))).
    repeat constructor.
  - assert (H := proj2 (union_failure_is_first_failing_member
                          (parseOptions [] true))
                       Sample.stringType Sample.numberType
                       TypeFailure.String TypeFailure.Number
                       eq_refl eq_refl).
    destruct H as (H1 & H2 & _).
    + discriminate.
    + left. reflexivity.
    + split; assumption.
Defined.

Lemma notBooleanOrUndefined_In ty tys :
  In ty tys -> notBooleanOrUndefined ty = true ->
  isBooleanUndefined_loop false tys = None.
Proof.
  intros Hin Hty. apply isBooleanUndefined_loop_None.
  apply existsb_exists. eauto.
Qed.

(** C7: a type of kind [Promise] fails with [Promise] under every options
    value, as a union member and on its own; on its own the failure reaches
    [context.report]; and a union that holds such a type (an object type: no
    boolean-literal, void or undefined flag) always fails, with [Promise] when
    no earlier member fails. *)
Theorem promise_always_fails (T : TsType) (options : Options) :
  getKind T = TypeKind.Promise ->
  (forall isInUnion : bool,
      failureForKind (getKind T) isInUnion options
        = Some TypeFailure.Promise) /\
  (isUnionType T = false ->
   getTypeFailure T options = Some TypeFailure.Promise) /\
  (isUnionType T = false ->
   forall checker p node location out,
     getTypeAtLocation checker p node = T ->
     exists message,
       checkExpression options checker p node location out
         = out ++ [MkReport p message]) /\
  (forall U : TsType,
      isUnionType U = true ->
      In T (types U) ->
      isTypeFlagSet T TypeFlags.BooleanLiteral = false ->
      isTypeFlagSet T (N.lor TypeFlags.Void TypeFlags.Undefined) = false ->
      (exists failure, getTypeFailure U options = Some failure) /\
      (forall pre post,
          types U = pre ++ T :: post ->
          Forall (memberPasses options) pre ->
          getTypeFailure U options = Some TypeFailure.Promise)).
Proof.
  intros HT.
  assert (Hfail : forall isInUnion,
             failureForKind (getKind T) isInUnion options
               = Some TypeFailure.Promise)
    by (intros; now rewrite HT).
  assert (Hown : isUnionType T = false ->
                 getTypeFailure T options = Some TypeFailure.Promise).
  { intros HU. unfold getTypeFailure. now rewrite HU, Hfail. }
  split; [exact Hfail|]. split; [exact Hown|]. split.
  - intros HU checker p node location out Htype.
    unfold checkExpression. rewrite Htype, (Hown HU). cbn. eauto.
  - intros U HU Hin Hliteral Hundefined.
    destruct (getKind_Promise_flags _ HT) as [Hboolean _].
    assert (Hnone : isBooleanUndefined U = None).
    { apply notBooleanOrUndefined_In with (ty := T); [assumption|].
      unfold notBooleanOrUndefined.
      now rewrite Hboolean, Hliteral, Hundefined. }
    unfold getTypeFailure. rewrite HU.
    rewrite (handleUnion_generic _ _ (or_intror Hnone)). split.
    + eapply handleUnion_loop_member; eauto.
    + intros pre post Hsplit Hpre. rewrite Hsplit.
      now apply handleUnion_loop_first.
Qed.

Lemma promise_always_fails_witness :
  getKind Sample.promiseType = TypeKind.Promise /\
  getTypeFailure Sample.promiseType
    (parseOptions ["allow-null-union"; "allow-undefined-union";
                   "allow-string"; "allow-enum"; "allow-number"; "allow-mix";
                   "allow-boolean-or-undefined"; "allow-any-rhs"] false)
    = Some TypeFailure.Promise /\
  getTypeFailure (unionOf [Sample.undefinedType; Sample.promiseType])
    (parseOptions ["allow-null-union"; "allow-undefined-union";
                   "allow-string"; "allow-enum"; "allow-number"; "allow-mix";
                   "allow-boolean-or-undefined"; "allow-any-rhs"] false)
    = Some TypeFailure.Promise.
Proof.
  split; [reflexivity|].
  pose proof (promise_always_fails Sample.promiseType
    (parseOptions ["allow-null-union"; "allow-undefined-union";
                   "allow-string"; "allow-enum"; "allow-number"; "allow-mix";
                   "allow-boolean-or-undefined"; "allow-any-rhs"] false)
    eq_refl) as (_ & Hown & _ & Hunion).
  split.
  - apply Hown. reflexivity.
  - apply (proj2 (Hunion (unionOf [Sample.undefinedType; Sample.promiseType])
                    eq_refl (or_intror (or_introl eq_refl))
                    eq_refl eq_refl)
                 [Sample.undefinedType] [] eq_refl).
    repeat constructor.
Defined.

(** C8: a non-union type of kind [Boolean] never fails, whatever the
    options. *)
Theorem plain_boolean_never_fails (T : TsType) (options : Options) :
  isUnionType T = false ->
  getKind T = TypeKind.Boolean ->
  getTypeFailure T options = None.
Proof.
  intros HU HK. unfold getTypeFailure. now rewrite HU, HK.
Qed.

Lemma plain_boolean_never_fails_witness :
  getTypeFailure Sample.plainBoolean (parseOptions [] true) = None.
Proof.
  apply plain_boolean_never_fails; reflexivity.
Defined.

(** The checker's own [boolean], the union [false | true] with the [Boolean]
    flag, goes through [handleUnion] and passes there too. *)
Lemma checker_boolean_never_fails (options : Options) :
  getTypeFailure Sample.booleanType options = None.
Proof.
  unfold getTypeFailure.
  change (isUnionType Sample.booleanType) with true. cbv iota.
  unfold handleUnion.
  change (isBooleanUndefined Sample.booleanType) with (Some true).
  change (handleUnion_loop (types Sample.booleanType) options)
    with (@None TypeFailure.t).
  now destruct (allowBooleanOrUndefined options).
Qed.

(** The intrinsic [any] type passes on its own, whatever the options. *)
Lemma any_type_never_fails (options : Options) :
  getTypeFailure Sample.anyType options = None.
Proof. reflexivity. Qed.

(** C9: no type and no options make the failure determination answer
    [Mixes]: not [getTypeFailure], not [handleUnion], not
    [failureForKind]. *)
Theorem Mixes_is_unreachable (type : TsType) (options : Options) :
  getTypeFailure type options <> Some TypeFailure.Mixes /\
  handleUnion type options <> Some TypeFailure.Mixes /\
  (forall kind isInUnion,
      failureForKind kind isInUnion options <> Some TypeFailure.Mixes).
Proof.
  repeat split.
  - unfold getTypeFailure.
    destruct (isUnionType type); [apply handleUnion_not_Mixes|].
    destruct (failureForKind (getKind type) false options) eqn:E.
    + rewrite <- E. apply failureForKind_not_Mixes.
    + destruct (triState (getKind type)) as [[|]|]; split_ifs; discriminate.
  - apply handleUnion_not_Mixes.
  - intros. apply failureForKind_not_Mixes.
Qed.

(** C10: on a union whose members are all of kind [Undefined] (undefined or
    void, none a boolean or a boolean literal), [handleUnion] answers
    [AlwaysFalsy] as soon as [allowBooleanOrUndefined] is set, whatever
    [allowUndefinedUnion] says, and answers no failure with
    [allowBooleanOrUndefined] unset and [allowUndefinedUnion] set. *)
Theorem allowBooleanOrUndefined_is_not_monotone
        (U : TsType) (withIt withoutIt : Options) :
  Forall (fun ty => getKind ty = TypeKind.Undefined /\
                    isTypeFlagSet ty TypeFlags.BooleanLiteral = false)
         (types U) ->
  allowBooleanOrUndefined withIt = true ->
  allowBooleanOrUndefined withoutIt = false ->
  allowUndefinedUnion withoutIt = true ->
  handleUnion U withIt = Some TypeFailure.AlwaysFalsy /\
  handleUnion U withoutIt = None.
Proof.
  intros Hmembers Hwith Hwithout Hundefined. split.
  - unfold handleUnion, isBooleanUndefined. rewrite Hwith.
    rewrite isBooleanUndefined_loop_all_undefined; [reflexivity|].
    eapply Forall_impl; [|exact Hmembers].
    intros ty [HK HL]. destruct (getKind_Undefined_flags _ HK). auto.
  - rewrite handleUnion_generic by now left.
    apply handleUnion_loop_pass.
    eapply Forall_impl; [|exact Hmembers].
    intros ty [HK _]. unfold memberPasses, failureForKind.
    now rewrite HK, Hundefined.
Qed.

Lemma allowBooleanOrUndefined_is_not_monotone_witness :
  handleUnion (unionOf [Sample.undefinedType; Sample.voidType])
    (parseOptions ["allow-undefined-union"; "allow-boolean-or-undefined"]
                  true)
    = Some TypeFailure.AlwaysFalsy /\
  handleUnion (unionOf [Sample.undefinedType; Sample.voidType])
    (parseOptions ["allow-undefined-union"] true) = None.
Proof.
  apply allowBooleanOrUndefined_is_not_monotone; try reflexivity.
  repeat constructor.
Defined.

(** ** Traversal *)

Section Traversal.

Variable options : Options.
Variable checker : TypeChecker.

Lemma checkExpression_reports p node location out :
  exists rs,
    checkExpression options checker p node location out = out ++ rs /\
    Forall (fun r => report_node r = p) rs.
Proof.
  unfold checkExpression.
  destruct (getTypeFailure _ options) as [failure|].
  - destruct (_ && _ && _).
    + exists []. now rewrite app_nil_r.
    + eexists. split; [reflexivity|]. now repeat constructor.
  - exists []. now rewrite app_nil_r.
Qed.

Lemma cb_switch_reports p node out :
  exists rs,
    cb_switch options checker p node out = out ++ rs /\
    Forall (fun r => exists i, checkedSlot node = Some i /\
                               report_node r = p ++ [i]) rs.
Proof.
  assert (Hnone : exists rs,
             out = out ++ rs /\
             Forall (fun r => exists i, checkedSlot node = Some i /\
                                        report_node r = p ++ [i]) rs)
    by (exists []; now rewrite app_nil_r).
  assert (Hcheck : forall i e,
             checkedSlot node = Some i ->
             exists rs,
               checkExpression options checker (p ++ [i]) e node out
                 = out ++ rs /\
               Forall (fun r => exists i, checkedSlot node = Some i /\
                                          report_node r = p ++ [i]) rs).
  { intros i e Hi.
    destruct (checkExpression_reports (p ++ [i]) e node out) as (rs & -> & H).
    exists rs. split; [reflexivity|].
    eapply Forall_impl; [|exact H]. cbn beta. eauto. }
  destruct node; cbn [cb_switch]; try exact Hnone;
    try (apply Hcheck; reflexivity).
  - cbn [checkedSlot] in *.
    destruct (SyntaxKind.eqb operator SyntaxKind.ExclamationToken);
      [now apply Hcheck | exact Hnone].
  - destruct condition; [now apply Hcheck | exact Hnone].
Qed.

Lemma runsBelow_finished p node : runsBelow p node finished.
Proof.
  intros out. exists []. now rewrite app_nil_r.
Qed.

Lemma runsBelow_andThen p node v w :
  runsBelow p node v -> runsBelow p node w -> runsBelow p node (andThen v w).
Proof.
  intros Hv Hw out. unfold andThen.
  destruct (Hv out) as (rs1 & -> & H1).
  destruct (Hw (out ++ rs1)) as (rs2 & -> & H2).
  exists (rs1 ++ rs2). rewrite app_assoc. split; [reflexivity|].
  apply Forall_app. now split.
Qed.

(** The callback at the child in slot [j]. *)
Lemma runsBelow_cb p node j c :
  child node j = Some c ->
  (forall p', runsBelow p' c (forEachChild_cb options checker p' c)) ->
  runsBelow p node
    (fun out => forEachChild_cb options checker (p ++ [j]) c
                  (cb_switch options checker (p ++ [j]) c out)).
Proof.
  intros Hchild IH out.
  destruct (cb_switch_reports (p ++ [j]) c out) as (rs1 & -> & H1).
  destruct (IH (p ++ [j]) (out ++ rs1)) as (rs2 & -> & H2).
  exists (rs1 ++ rs2). rewrite app_assoc. split; [reflexivity|].
  apply Forall_app. split.
  - eapply Forall_impl; [|exact H1]. intros r (i & Hi & Hr).
    exists [j], c, i. repeat split; try assumption; try discriminate.
    + cbn. now rewrite Hchild.
    + now rewrite Hr, <- app_assoc.
  - eapply Forall_impl; [|exact H2]. intros r (q & loc & i & _ & Hq & Hi & Hr).
    exists (j :: q), loc, i. repeat split; try assumption; try discriminate.
    + cbn. now rewrite Hchild.
    + now rewrite Hr, <- app_assoc.
Qed.

Lemma runsBelow_cb_ifPresent p node j o :
  child node j = o ->
  POpt (fun c => forall p', runsBelow p' c
                              (forEachChild_cb options checker p' c)) o ->
  runsBelow p node
    (ifPresent
       (fun c out => forEachChild_cb options checker (p ++ [j]) c
                       (cb_switch options checker (p ++ [j]) c out)) o).
Proof.
  destruct o as [c|]; cbn; intros Hchild IH.
  - now apply runsBelow_cb.
  - apply runsBelow_finished.
Qed.

(** The traversal below a node runs to its end, the callback never answering
    a truthy value, and reports only checked slots of descendants. *)
Lemma forEachChild_cb_runsBelow node :
  forall p, runsBelow p node (forEachChild_cb options checker p node).
Proof.
  induction node using Node_induction; intros p; cbn [forEachChild_cb];
    repeat first
      [ apply runsBelow_andThen
      | apply runsBelow_cb_ifPresent; [reflexivity | assumption]
      | apply runsBelow_cb; [reflexivity | assumption] ].
  match goal with
  | |- runsBelow _ _ (?each 0 children) =>
      assert (Heach : forall nodes i,
                 (forall k c, nth_error nodes k = Some c ->
                              nth_error children (i + k) = Some c) ->
                 Forall (fun c => forall p',
                             runsBelow p' c
                               (forEachChild_cb options checker p' c)) nodes ->
                 runsBelow p (Generic k text children) (each i nodes))
  end.
  { induction nodes as [|c rest IHrest]; intros i Hnth Hall.
    - apply runsBelow_finished.
    - inversion Hall as [|? ? Hc Hrest]; subst.
      apply runsBelow_andThen.
      + apply runsBelow_cb; [|assumption].
        cbn [child]. rewrite <- (Nat.add_0_r i). now apply Hnth.
      + apply IHrest; [|assumption].
        intros j c' Hj. rewrite Nat.add_succ_l, <- Nat.add_succ_r.
        now apply Hnth. }
  apply Heach; [|assumption]. intros j c Hj. exact Hj.
Qed.

(** The callback [cb] always answers [undefined], so no [ts.forEachChild]
    of the traversal stops before its last child. *)
Corollary cb_returns_undefined p node out :
  fst (cb options checker p node out) = None.
Proof.
  unfold cb.
  destruct (forEachChild_cb_runsBelow node p
              (cb_switch options checker p node out)) as (rs & -> & _).
  reflexivity.
Qed.

(** Every report of [walk] is about the checked slot of a node of the
    file. *)
Lemma walk_reportedBelow sourceFile :
  Forall (reportedBelow [] sourceFile) (walk options checker sourceFile).
Proof.
  unfold walk.
  destruct (forEachChild_cb_runsBelow sourceFile [] []) as (rs & -> & H).
  exact H.
Qed.

(** [walk] never reports an operand of a binary expression, nor its operator
    token: [cb]'s switch has no case for binary expressions. *)
Lemma walk_skips_binary_operands sourceFile p l tok r i :
  nodeAt sourceFile p = Some (BinaryExpression l tok r) ->
  Forall (fun report => report_node report <> p ++ [i])
         (walk options checker sourceFile).
Proof.
  intros Hp. eapply Forall_impl; [|apply walk_reportedBelow].
  intros report (q & loc & j & _ & Hq & Hj & Hr) Heq.
  rewrite Hr in Heq. cbn [app] in Heq.
  apply app_inj_tail in Heq as [-> ->].
  rewrite Hp in Hq. injection Hq as <-. discriminate Hj.
Qed.

End Traversal.

(** ** The rule as a whole *)

(** C1, at a failing input: for [a && b;] with [a : string] and
    [b : number] the rule reports nothing under its default options, although
    [checkExpression] would report either operand, as an operand of [&&], had
    the traversal handed it over. *)
Theorem logical_operands_are_not_checked :
  create (Sample.project true Sample.a_and_b_env []) Sample.a_and_b_file
    = [] /\
  checkExpression
    (resolvedOptions (Sample.project true Sample.a_and_b_env []))
    (Sample.checkerOf Sample.a_and_b_env)
    [0; 0; 0] (Sample.identifier "a") Sample.a_and_b []
    = [MkReport [0; 0; 0]
         ("This type is not allowed in the operand for the '&&' operator " ++
          "because it is a string. Allowed types are boolean, null-union, " ++
          "undefined-union, or boolean-or-undefined.")] /\
  checkExpression
    (resolvedOptions (Sample.project true Sample.a_and_b_env []))
    (Sample.checkerOf Sample.a_and_b_env)
    [0; 0; 2] (Sample.identifier "b") Sample.a_and_b []
    = [MkReport [0; 0; 2]
         ("This type is not allowed in the operand for the '&&' operator " ++
          "because it is a number. Allowed types are boolean, null-union, " ++
          "undefined-union, or boolean-or-undefined.")].
Proof.
  repeat split; reflexivity.
Qed.

(** C2, as the code has it: the [strictNullChecks] of the options that
    [create] resolves is the constant [true], whatever the project's compiler
    configuration; and [checkExpression] drops every [AlwaysTruthy] failure
    when the [strictNullChecks] of its options is false and [allowNullUnion]
    or [allowUndefinedUnion] is set. *)
Theorem strictNullChecks_and_AlwaysTruthy_suppression :
  (forall context : RuleContext,
      strictNullChecks (resolvedOptions context) = true) /\
  (forall options checker p node location out,
      strictNullChecks options = false ->
      allowNullUnion options = true \/ allowUndefinedUnion options = true ->
      getTypeFailure (getTypeAtLocation checker p node) options
        = Some TypeFailure.AlwaysTruthy ->
      checkExpression options checker p node location out = out).
Proof.
  split; [reflexivity|].
  intros options checker p node location out Hstrict Hallow Hfailure.
  unfold checkExpression. rewrite Hfailure, Hstrict.
  destruct Hallow as [-> | ->]; cbn; [reflexivity|].
  now rewrite orb_true_r.
Qed.

Lemma strictNullChecks_and_AlwaysTruthy_suppression_witness :
  checkExpression (parseOptions ["allow-null-union"] false)
                  (Sample.checkerOf Sample.if_obj_env)
                  [0; 0] (Sample.identifier "obj")
                  (IfStatement (Sample.identifier "obj") (Sample.block [])
                               None) []
    = [].
Proof.
  apply (proj2 strictNullChecks_and_AlwaysTruthy_suppression).
  - reflexivity.
  - left. reflexivity.
  - reflexivity.
Defined.

(** C2, as the claim has it, fails: in a project whose compiler
    configuration has strict null checks off, configured with
    [allow-null-union], the resolved [strictNullChecks] is still true and the
    [AlwaysTruthy] failure of [if (obj) {}] is reported. *)
Lemma strictNullChecks_from_project_counterexample :
  CompilerOptions.strictNullChecks
    (getCompilerOptions (parserServices_program Sample.nonStrictProject))
    = false /\
  allowNullUnion (resolvedOptions Sample.nonStrictProject) = true /\
  strictNullChecks (resolvedOptions Sample.nonStrictProject) <> false /\
  getTypeFailure Sample.someObject (resolvedOptions Sample.nonStrictProject)
    = Some TypeFailure.AlwaysTruthy /\
  create Sample.nonStrictProject Sample.if_obj_file
    = [MkReport [0; 0]
         ("This type is not allowed in the 'if' condition because it is " ++
          "always truthy. Allowed types are boolean or null-union.")].
Proof.
  repeat split; try reflexivity. discriminate.
Qed.

(** C3: with [allowAnyRhs] set, the right-hand operand of a [&&] or [||]
    whose type is [any] gets no report, wherever the expression stands in the
    file. *)
Theorem any_rhs_is_not_reported
        (options : Options) (checker : TypeChecker) (sourceFile : Node)
        (p : path) (l tok r : Node) :
  allowAnyRhs options = true ->
  nodeAt sourceFile p = Some (BinaryExpression l tok r) ->
  binaryBooleanExpressionKind (BinaryExpression l tok r) <> None ->
  isTypeFlagSet (getTypeAtLocation checker (p ++ [2]) r) TypeFlags.Any
    = true ->
  Forall (fun report => report_node report <> p ++ [2])
         (walk options checker sourceFile).
Proof.
  intros _ Hp _ _. eapply walk_skips_binary_operands. exact Hp.
Qed.

Lemma any_rhs_is_not_reported_witness :
  Forall (fun report => report_node report <> [0; 1; 0; 0; 2])
         (walk (parseOptions ["allow-any-rhs"] true)
               (Sample.checkerOf Sample.if_s_flag_or_x_env)
               Sample.if_s_flag_or_x_file).
Proof.
  apply (@any_rhs_is_not_reported
           (parseOptions ["allow-any-rhs"] true)
           (Sample.checkerOf Sample.if_s_flag_or_x_env)
           Sample.if_s_flag_or_x_file [0; 1; 0; 0]
           (Sample.identifier "flag")
           (Sample.token SyntaxKind.BarBarToken "||")
           (Sample.identifier "x")).
  - reflexivity.
  - reflexivity.
  - discriminate.
  - reflexivity.
Defined.

(** * Further properties *)

(** ** Options *)

Lemma has_In ruleArguments name :
  has ruleArguments name = true <-> In name ruleArguments.
Proof.
  unfold has. rewrite existsb_exists. split.
  - intros (x & Hx & Heq). apply String.eqb_eq in Heq. now subst.
  - intros H. exists name. split; [assumption | apply String.eqb_refl].
Qed.

Lemma has_agree l1 l2 name :
  (In name l1 <-> In name l2) -> has l1 name = has l2 name.
Proof.
  intros H. destruct (has l1 name) eqn:E1, (has l2 name) eqn:E2;
    try reflexivity.
  - apply has_In, H, has_In in E1. congruence.
  - apply has_In, H, has_In in E2. congruence.
Qed.

(** X1: [parseOptions] looks at nothing but which of its eight names occur
    in the list: order, repetitions and any other string make no
    difference. *)
Theorem parseOptions_membership
        (l1 l2 : list string) (strictNullChecks : bool) :
  (forall name, In name recognisedOptions ->
                (In name l1 <-> In name l2)) ->
  parseOptions l1 strictNullChecks = parseOptions l2 strictNullChecks.
Proof.
  intros H. unfold parseOptions.
  rewrite (has_agree l1 l2 OPTION_ALLOW_NULL_UNION),
          (has_agree l1 l2 OPTION_ALLOW_UNDEFINED_UNION),
          (has_agree l1 l2 OPTION_ALLOW_STRING),
          (has_agree l1 l2 OPTION_ALLOW_ENUM),
          (has_agree l1 l2 OPTION_ALLOW_NUMBER),
          (has_agree l1 l2 OPTION_ALLOW_MIX),
          (has_agree l1 l2 OPTION_ALLOW_BOOLEAN_OR_UNDEFINED),
          (has_agree l1 l2 OPTION_ALLOW_ANY_RHS);
    try reflexivity; apply H; cbn; tauto.
Qed.

Lemma parseOptions_membership_witness :
  parseOptions ["allow-string"; "allow-enum"] true
  = parseOptions ["allow-enum"; "no-such-option"; "allow-string";
                  "allow-enum"] true.
Proof.
  apply parseOptions_membership.
  intros name H. cbn in H.
  repeat (destruct H as [<- | H]; [cbn; intuition discriminate|]).
  destruct H.
Defined.

(** ** Unions, whatever the order of their members *)

Lemma isBooleanUndefined_loop_closed isTruthy tys :
  isBooleanUndefined_loop isTruthy tys
  = if existsb notBooleanOrUndefined tys then None
    else Some (isTruthy || existsb truthyMember tys).
Proof.
  revert isTruthy.
  induction tys as [|ty tys IH]; intros isTruthy;
    cbn [isBooleanUndefined_loop existsb].
  - now rewrite orb_false_r.
  - unfold notBooleanOrUndefined at 1, truthyMember at 1.
    destruct (isTypeFlagSet ty TypeFlags.Boolean); cbn [negb andb orb].
    { rewrite IH. now rewrite orb_true_r. }
    destruct (isTypeFlagSet ty TypeFlags.BooleanLiteral); cbn [negb andb orb].
    { rewrite IH. now rewrite orb_assoc. }
    destruct (isTypeFlagSet ty _); cbn [negb andb orb];
      [apply IH | reflexivity].
Qed.

Lemma existsb_Permutation (A : Type) (f : A -> bool) (l l' : list A) :
  Permutation l l' -> existsb f l = existsb f l'.
Proof.
  induction 1 as [| x l l' _ IH | x y l | l l' l'' _ IH1 _ IH2]; cbn.
  - reflexivity.
  - now rewrite IH.
  - now rewrite !orb_assoc, (orb_comm (f y)).
  - congruence.
Qed.

Lemma isBooleanUndefined_Permutation (type type' : TsType) :
  Permutation (types type) (types type') ->
  isBooleanUndefined type' = isBooleanUndefined type.
Proof.
  intros HP. unfold isBooleanUndefined.
  rewrite !isBooleanUndefined_loop_closed.
  now rewrite (existsb_Permutation notBooleanOrUndefined HP),
              (existsb_Permutation truthyMember HP).
Qed.

(** X2: [isBooleanUndefined] has a closed form that does not depend on the
    order of the members: it gives up when some member is neither boolean,
    nor a boolean literal, nor void or undefined, and answers otherwise
    whether some member is boolean or the literal [true]. *)
Theorem isBooleanUndefined_closed_form (type : TsType) :
  isBooleanUndefined type
  = (if existsb notBooleanOrUndefined (types type) then None
     else Some (existsb truthyMember (types type))) /\
  (forall type' : TsType,
      Permutation (types type) (types type') ->
      isBooleanUndefined type' = isBooleanUndefined type).
Proof.
  split.
  - unfold isBooleanUndefined. now rewrite isBooleanUndefined_loop_closed.
  - intros type'. apply isBooleanUndefined_Permutation.
Qed.

Lemma isBooleanUndefined_closed_form_witness :
  isBooleanUndefined
    (unionOf [Sample.trueType; Sample.undefinedType; Sample.falseType])
  = isBooleanUndefined Sample.booleanOrUndefined_flat.
Proof.
  apply (proj2 (isBooleanUndefined_closed_form
                  Sample.booleanOrUndefined_flat)).
  cbn [types unionOf Sample.booleanOrUndefined_flat].
  apply Permutation_sym.
  apply (Permutation_cons_append [Sample.undefinedType; Sample.falseType]
                                 Sample.trueType).
Defined.

Lemma handleUnion_loop_None options tys :
  handleUnion_loop tys options = None <-> Forall (memberPasses options) tys.
Proof.
  split; [|apply handleUnion_loop_pass].
  induction tys as [|ty tys IH]; cbn [handleUnion_loop]; [constructor|].
  destruct (failureForKind (getKind ty) true options) eqn:E;
    [discriminate|].
  intros H. constructor; [exact E | now apply IH].
Qed.

(** X3: whether a union fails does not depend on the order of its members;
    only the failure reported does. *)
Theorem union_pass_is_order_independent (U U' : TsType) (options : Options) :
  isUnionType U = true ->
  isUnionType U' = true ->
  Permutation (types U) (types U') ->
  (getTypeFailure U options = None <-> getTypeFailure U' options = None).
Proof.
  intros HU HU' HP. unfold getTypeFailure. rewrite HU, HU'.
  assert (Hloop : handleUnion_loop (types U) options = None <->
                  handleUnion_loop (types U') options = None).
  { rewrite !handleUnion_loop_None. split; intros H.
    - eapply Permutation_Forall; eassumption.
    - eapply Permutation_Forall; [apply Permutation_sym|]; eassumption. }
  unfold handleUnion.
  rewrite (isBooleanUndefined_Permutation U U' HP).
  destruct (allowBooleanOrUndefined options); [|exact Hloop].
  destruct (isBooleanUndefined U) as [[|]|]; [tauto | | exact Hloop].
  split; discriminate.
Qed.

Lemma union_pass_is_order_independent_witness :
  getTypeFailure (unionOf [Sample.stringType; Sample.undefinedType])
                 (parseOptions ["allow-undefined-union"; "allow-string"] true)
    = None <->
  getTypeFailure (unionOf [Sample.undefinedType; Sample.stringType])
                 (parseOptions ["allow-undefined-union"; "allow-string"] true)
    = None.
Proof.
  apply union_pass_is_order_independent.
  - reflexivity.
  - reflexivity.
  - apply perm_swap.
Defined.

(** ** Options that allow more *)

Lemma failureForKind_weaker kind isInUnion options options' :
  weaker options options' ->
  failureForKind kind isInUnion options = None ->
  failureForKind kind isInUnion options' = None.
Proof.
  intros (_ & Hnull & Hundefined & Hstring & Henum & Hnumber).
  unfold failureForKind.
  destruct kind, isInUnion; cbn [andb]; try (intros; assumption);
    repeat match goal with
           | |- context [allowString options] =>
               destruct (allowString options); [rewrite Hstring by easy|]
           | |- context [allowNumber options] =>
               destruct (allowNumber options); [rewrite Hnumber by easy|]
           | |- context [allowEnum options] =>
               destruct (allowEnum options); [rewrite Henum by easy|]
           | |- context [allowNullUnion options] =>
               destruct (allowNullUnion options); [rewrite Hnull by easy|]
           | |- context [allowUndefinedUnion options] =>
               destruct (allowUndefinedUnion options);
               [rewrite Hundefined by easy|]
           end;
    cbn; try reflexivity; discriminate.
Qed.

(** X4: apart from [allowBooleanOrUndefined], allowing more never creates a
    failure: a type that passes under some options passes under all options
    that allow at least as much and agree on [allowBooleanOrUndefined]. *)
Theorem allowing_more_keeps_passing
        (type : TsType) (options options' : Options) :
  weaker options options' ->
  getTypeFailure type options = None ->
  getTypeFailure type options' = None.
Proof.
  intros Hw. unfold getTypeFailure. destruct (isUnionType type).
  - assert (Hloop : handleUnion_loop (types type) options = None ->
                    handleUnion_loop (types type) options' = None).
    { rewrite !handleUnion_loop_None. apply Forall_impl.
      intros ty. now apply failureForKind_weaker. }
    unfold handleUnion. rewrite <- (proj1 Hw).
    destruct (allowBooleanOrUndefined options); [|exact Hloop].
    destruct (isBooleanUndefined type) as [[|]|]; auto.
  - destruct (failureForKind (getKind type) false options) eqn:E;
      [discriminate|].
    now rewrite (failureForKind_weaker _ _ Hw E).
Qed.

Lemma allowing_more_keeps_passing_witness :
  getTypeFailure (unionOf [Sample.stringType; Sample.undefinedType])
    (parseOptions ["allow-undefined-union"; "allow-string"; "allow-number"]
                  true) = None.
Proof.
  apply allowing_more_keeps_passing
    with (options := parseOptions ["allow-undefined-union"; "allow-string"]
                                  true).
  - repeat split; intros H; try reflexivity; discriminate H.
  - reflexivity.
Defined.

(** ** Types on their own *)

(** A flag test on a mask answers yes as soon as it does on a part of the
    mask. *)
Lemma isTypeFlagSet_part (type : TsType) (part mask : N) :
  N.land part mask = part ->
  isTypeFlagSet type part = true ->
  isTypeFlagSet type mask = true.
Proof.
  unfold isTypeFlagSet. intros Hpart H.
  destruct (N.eqb_spec (N.land (flags type) mask) 0) as [E|]; [|reflexivity].
  rewrite <- Hpart, (N.land_comm part mask), N.land_assoc, E in H.
  discriminate H.
Qed.

Lemma isTypeFlagSet_lor (type : TsType) (a b : N) :
  isTypeFlagSet type (N.lor a b)
  = isTypeFlagSet type a || isTypeFlagSet type b.
Proof.
  unfold isTypeFlagSet. rewrite N.land_lor_distr_r.
  destruct (N.eqb_spec (N.land (flags type) a) 0) as [Ea|Ea],
           (N.eqb_spec (N.land (flags type) b) 0) as [Eb|Eb]; cbn;
    destruct (N.eqb_spec (N.lor (N.land (flags type) a)
                                (N.land (flags type) b)) 0) as [E|E];
    try reflexivity; exfalso;
    first [ apply E; now rewrite Ea, Eb
          | apply N.lor_eq_0_iff in E; tauto ].
Qed.

Lemma getKind_FalseBooleanLiteral_flag (type : TsType) :
  getKind type = TypeKind.FalseBooleanLiteral ->
  isTypeFlagSet type TypeFlags.BooleanLiteral = true.
Proof.
  unfold getKind. split_ifs; intros H; try discriminate H; reflexivity.
Qed.

(** X5: on its own, a type of kind [FalseBooleanLiteral] (the literal
    [false]) never fails, and a type of kind [AlwaysTruthy] fails, with
    [AlwaysTruthy], exactly when it carries neither the [Any] nor the
    [BooleanLiteral] flag: [any] and the literal [true] pass, whatever the
    options. *)
Theorem boolean_literals_and_any_pass (type : TsType) (options : Options) :
  isUnionType type = false ->
  (getKind type = TypeKind.FalseBooleanLiteral ->
   getTypeFailure type options = None) /\
  (getKind type = TypeKind.AlwaysTruthy ->
   isTypeFlagSet type TypeFlags.Any = true \/
   isTypeFlagSet type TypeFlags.BooleanLiteral = true ->
   getTypeFailure type options = None) /\
  (getKind type = TypeKind.AlwaysTruthy ->
   isTypeFlagSet type TypeFlags.Any = false ->
   isTypeFlagSet type TypeFlags.BooleanLiteral = false ->
   getTypeFailure type options = Some TypeFailure.AlwaysTruthy).
Proof.
  intros HU. unfold getTypeFailure. rewrite HU. repeat split.
  - intros HK. rewrite HK. cbn.
    now rewrite (getKind_FalseBooleanLiteral_flag _ HK).
  - intros HK Hflag. rewrite HK. cbn [failureForKind triState].
    rewrite isTypeFlagSet_lor. destruct Hflag as [-> | ->];
      [reflexivity | now rewrite orb_true_r].
  - intros HK Hany Hliteral. rewrite HK. cbn [failureForKind triState].
    now rewrite isTypeFlagSet_lor, Hany, Hliteral.
Qed.

Lemma boolean_literals_and_any_pass_witness :
  getTypeFailure Sample.falseType (parseOptions [] true) = None /\
  getTypeFailure Sample.trueType (parseOptions [] true) = None /\
  getTypeFailure Sample.anyType (parseOptions [] true) = None /\
  getTypeFailure Sample.someObject (parseOptions [] true)
    = Some TypeFailure.AlwaysTruthy.
Proof.
  split; [|split; [|split]].
  - apply (proj1 (boolean_literals_and_any_pass Sample.falseType
                    (parseOptions [] true) eq_refl)).
    reflexivity.
  - apply (proj1 (proj2 (boolean_literals_and_any_pass Sample.trueType
                           (parseOptions [] true) eq_refl)));
      [reflexivity | right; reflexivity].
  - apply (proj1 (proj2 (boolean_literals_and_any_pass Sample.anyType
                           (parseOptions [] true) eq_refl)));
      [reflexivity | left; reflexivity].
  - apply (proj2 (proj2 (boolean_literals_and_any_pass Sample.someObject
                           (parseOptions [] true) eq_refl)));
      reflexivity.
Defined.

(** X6: on its own, a type of kind [Null] or [Undefined] (null, undefined,
    void) fails with [AlwaysFalsy] under every options value:
    [allowNullUnion] and [allowUndefinedUnion] only speak of union
    members. *)
Theorem bare_null_and_undefined_are_always_falsy
        (type : TsType) (options : Options) :
  isUnionType type = false ->
  getKind type = TypeKind.Null \/ getKind type = TypeKind.Undefined ->
  isTypeFlagSet type TypeFlags.BooleanLiteral = false ->
  getTypeFailure type options = Some TypeFailure.AlwaysFalsy.
Proof.
  intros HU HK Hliteral. unfold getTypeFailure. rewrite HU.
  destruct HK as [-> | ->]; cbn; now rewrite Hliteral.
Qed.

Lemma bare_null_and_undefined_are_always_falsy_witness :
  getTypeFailure Sample.nullType
    (parseOptions ["allow-null-union"; "allow-undefined-union";
                   "allow-boolean-or-undefined"] true)
  = Some TypeFailure.AlwaysFalsy.
Proof.
  apply bare_null_and_undefined_are_always_falsy;
    [reflexivity | left; reflexivity | reflexivity].
Defined.

Lemma handleUnion_loop_range options tys failure :
  handleUnion_loop tys options = Some failure ->
  failure <> TypeFailure.AlwaysTruthy /\ failure <> TypeFailure.AlwaysFalsy.
Proof.
  induction tys as [|ty tys IH]; cbn [handleUnion_loop]; [discriminate|].
  destruct (failureForKind (getKind ty) true options) eqn:E; [|exact IH].
  intros H. injection H as <-. revert E. unfold failureForKind.
  destruct (getKind ty); split_ifs; intros E; try discriminate E;
    injection E as <-; split; discriminate.
Qed.

(** X7: which failures can come out.  A type on its own never fails with
    [Null] or [Undefined].  A union never fails with [AlwaysTruthy], and
    fails with [AlwaysFalsy] only under [allowBooleanOrUndefined]; so the
    guard of [checkExpression] never drops the failure of a union: it is
    reported, whatever the options. *)
Theorem failures_by_shape (type : TsType) (options : Options) :
  (isUnionType type = false ->
   getTypeFailure type options <> Some TypeFailure.Null /\
   getTypeFailure type options <> Some TypeFailure.Undefined) /\
  (isUnionType type = true ->
   getTypeFailure type options <> Some TypeFailure.AlwaysTruthy /\
   (getTypeFailure type options = Some TypeFailure.AlwaysFalsy ->
    allowBooleanOrUndefined options = true) /\
   (forall checker p node location out failure,
       getTypeAtLocation checker p node = type ->
       getTypeFailure type options = Some failure ->
       checkExpression options checker p node location out
       = out ++ [reportFor options checker p node location failure])).
Proof.
  split; intros HU.
  - unfold getTypeFailure. rewrite HU.
    destruct (failureForKind (getKind type) false options) eqn:E.
    + revert E. unfold failureForKind.
      destruct (getKind type); split_ifs; intros E; try discriminate E;
        injection E as <-; split; discriminate.
    + destruct (triState (getKind type)) as [[|]|]; split_ifs;
        split; discriminate.
  - assert (Htruthy : getTypeFailure type options
                      <> Some TypeFailure.AlwaysTruthy).
    { unfold getTypeFailure, handleUnion. rewrite HU.
      destruct (allowBooleanOrUndefined options);
        [destruct (isBooleanUndefined type) as [[|]|]|];
        try discriminate;
        intros H; now destruct (handleUnion_loop_range _ _ H). }
    split; [exact Htruthy|]. split.
    + unfold getTypeFailure, handleUnion. rewrite HU.
      destruct (allowBooleanOrUndefined options); [reflexivity|].
      intros H. now destruct (handleUnion_loop_range _ _ H).
    + intros checker p node location out failure Htype Hfailure.
      unfold checkExpression, reportFor. rewrite Htype, Hfailure.
      destruct failure; try reflexivity. contradiction.
Qed.

Lemma failures_by_shape_witness :
  getTypeFailure Sample.nullType (parseOptions [] true)
    <> Some TypeFailure.Null /\
  checkExpression (parseOptions ["allow-null-union"] false)
                  (Sample.checkerOf
                     [("x", unionOf [Sample.stringType; Sample.nullType])])
                  [0; 0] (Sample.identifier "x")
                  (WhileStatement (Sample.identifier "x") (Sample.block []))
                  []
  = [MkReport [0; 0]
       ("This type is not allowed in the 'while' condition because it " ++
        "could be a string. Allowed types are boolean or null-union.")].
Proof.
  split.
  - apply (proj1 (failures_by_shape Sample.nullType (parseOptions [] true))).
    reflexivity.
  - apply (proj2 (proj2 (proj2 (failures_by_shape
             (unionOf [Sample.stringType; Sample.nullType])
             (parseOptions ["allow-null-union"] false)) eq_refl))
             (Sample.checkerOf
                [("x", unionOf [Sample.stringType; Sample.nullType])])
             [0; 0] (Sample.identifier "x")
             (WhileStatement (Sample.identifier "x") (Sample.block []))
             [] TypeFailure.String eq_refl eq_refl).
Defined.

(** X8: a type that carries the [Enum] flag is number-like, so it is
    classified [String] or [Number], never [Enum], and [allowEnum] does not
    speak of it; the kind [Enum] is that of the types that carry the
    [EnumLiteral] flag and no string-like or number-like flag. *)
Theorem enum_flag_is_number_like (type : TsType) :
  (isTypeFlagSet type TypeFlags.Enum = true ->
   getKind type = TypeKind.String \/ getKind type = TypeKind.Number) /\
  (getKind type = TypeKind.Enum ->
   isTypeFlagSet type TypeFlags.EnumLiteral = true /\
   isTypeFlagSet type TypeFlags.Enum = false /\
   isTypeFlagSet type TypeFlags.StringLike = false /\
   isTypeFlagSet type TypeFlags.NumberLike = false).
Proof.
  assert (Hpart : isTypeFlagSet type TypeFlags.Enum = true ->
                  isTypeFlagSet type TypeFlags.NumberLike = true)
    by (apply isTypeFlagSet_part; reflexivity).
  split.
  - intros H. apply Hpart in H. unfold getKind. rewrite H.
    destruct (isTypeFlagSet type TypeFlags.StringLike); tauto.
  - unfold getKind.
    destruct (isTypeFlagSet type TypeFlags.StringLike) eqn:Hs;
      [discriminate|].
    destruct (isTypeFlagSet type TypeFlags.NumberLike) eqn:Hn;
      [discriminate|].
    destruct (isTypeFlagSet type TypeFlags.Enum) eqn:He;
      [discriminate (Hpart eq_refl)|].
    destruct (isTypeFlagSet type TypeFlags.EnumLike) eqn:Hl.
    + unfold TypeFlags.EnumLike in Hl.
      rewrite isTypeFlagSet_lor, He in Hl. cbn in Hl. split_ifs; tauto.
    + split_ifs; discriminate.
Qed.

Lemma enum_flag_is_number_like_witness :
  getKind (MkType (N.lor TypeFlags.Enum TypeFlags.Union) (Some "Color") None
                  None [])
  = TypeKind.String \/
  getKind (MkType (N.lor TypeFlags.Enum TypeFlags.Union) (Some "Color") None
                  None [])
  = TypeKind.Number.
Proof.
  apply (proj1 (enum_flag_is_number_like
                  (MkType (N.lor TypeFlags.Enum TypeFlags.Union)
                          (Some "Color") None None []))).
  reflexivity.
Defined.

(** ** Messages *)

Lemma string_append_assoc (a b c : string) :
  ((a ++ b) ++ c = a ++ (b ++ c))%string.
Proof.
  induction a as [|ch a IH]; cbn; [reflexivity | now rewrite IH].
Qed.

Lemma fold_right_append_tail (sep tail : string) (parts : list string) :
  (fold_right (fun part rest => part ++ sep ++ rest) "" parts ++ tail
   = fold_right (fun part rest => part ++ sep ++ rest) tail parts)%string.
Proof.
  induction parts as [|part parts IH]; cbn [fold_right]; [reflexivity|].
  now rewrite !string_append_assoc, IH.
Qed.

Lemma stringOr_loop_closed (res : string) (parts : list string) :
  stringOr_loop res parts
  = (res ++ fold_right (fun part rest => part ++ ", " ++ rest) "" parts)
      %string.
Proof.
  revert res. induction parts as [|part parts IH]; intros res; cbn.
  - induction res as [|ch res IHres]; cbn; [reflexivity|].
    now rewrite <- IHres.
  - rewrite IH. now rewrite !string_append_assoc.
Qed.

(** X9: [stringOr] writes one part as it is, two parts with [or] between
    them, and three parts or more as a list in which every part but the last
    is followed by a comma and the last is introduced by [or]. *)
Theorem stringOr_closed_form :
  (forall a, stringOr [a] = a) /\
  (forall a b, stringOr [a; b] = (a ++ " or " ++ b)%string) /\
  (forall (init : list string) (final : string),
      2 <= List.length init ->
      stringOr (init ++ [final])
      = fold_right (fun part rest => part ++ ", " ++ rest)%string
                   ("or " ++ final)%string init).
Proof.
  split; [reflexivity|]. split; [reflexivity|].
  intros init final Hlen.
  assert (Hgeneric : stringOr (init ++ [final])
                     = (stringOr_loop "" (removelast (init ++ [final])) ++
                        "or " ++ last (init ++ [final]) "undefined")%string).
  { destruct init as [|a [|b init]]; cbn in Hlen; try lia.
    cbn [app stringOr]. destruct (init ++ [final]) eqn:E; [|reflexivity].
    now destruct init. }
  rewrite Hgeneric, removelast_last, last_last, stringOr_loop_closed.
  exact (fold_right_append_tail ", " ("or " ++ final) init).
Qed.

Lemma stringOr_closed_form_witness :
  stringOr ["boolean"; "null-union"; "string"]
  = "boolean, null-union, or string".
Proof.
  apply (proj2 (proj2 stringOr_closed_form) ["boolean"; "null-union"]
               "string").
  cbn. lia.
Defined.

(** X10: the allowed types named in a message are [boolean] followed by one
    name for each toggle that is set among the six of [effectiveOptions], in
    a fixed order and without repetition; [allowMix], [allowAnyRhs] and
    [strictNullChecks] add nothing; and the message ends in
    "Only booleans are allowed." exactly when none of the six is set. *)
Theorem showExpectedTypes_shape (options : Options) :
  showExpectedTypes options
  = "boolean" ::
    filter (fun name =>
              (allowNullUnion options && String.eqb name "null-union") ||
              (allowUndefinedUnion options &&
               String.eqb name "undefined-union") ||
              (allowString options && String.eqb name "string") ||
              (allowEnum options && String.eqb name "enum") ||
              (allowNumber options && String.eqb name "number") ||
              (allowBooleanOrUndefined options &&
               String.eqb name "boolean-or-undefined"))
           ["null-union"; "undefined-union"; "string"; "enum"; "number";
            "boolean-or-undefined"] /\
  (forall location ty unionType,
      showFailure location ty unionType options
      = ("This type is not allowed in the " ++
         render (showLocation location) ++ " because it " ++
         showTypeFailure ty unionType (strictNullChecks options) ++ ". " ++
         (if allowNullUnion options || allowUndefinedUnion options ||
             allowString options || allowEnum options ||
             allowNumber options || allowBooleanOrUndefined options
          then "Allowed types are " ++ stringOr (showExpectedTypes options)
          else "Only booleans are allowed") ++ ".")%string).
Proof.
  split.
  - unfold showExpectedTypes, push_if.
    destruct (allowNullUnion options), (allowUndefinedUnion options),
             (allowString options), (allowEnum options),
             (allowNumber options), (allowBooleanOrUndefined options);
      reflexivity.
  - intros location ty unionType. unfold showFailure, showExpectedTypes,
      push_if.
    destruct (allowNullUnion options), (allowUndefinedUnion options),
             (allowString options), (allowEnum options),
             (allowNumber options), (allowBooleanOrUndefined options);
      reflexivity.
Qed.

(** ** What the traversal reports, exactly *)

Section Exact.

Variable options : Options.
Variable checker : TypeChecker.

Lemma checkExpression_append p e location out :
  checkExpression options checker p e location out
  = out ++ checkExpression options checker p e location [].
Proof.
  unfold checkExpression.
  destruct (getTypeFailure _ options) as [failure|];
    [destruct (_ && _ && _)|]; cbn [app]; now rewrite ?app_nil_r.
Qed.

Lemma cb_switch_append p node out :
  cb_switch options checker p node out
  = out ++ cb_switch options checker p node [].
Proof.
  destruct node; cbn [cb_switch]; try apply checkExpression_append;
    try (now rewrite app_nil_r).
  - destruct (SyntaxKind.eqb _ _);
      [apply checkExpression_append | now rewrite app_nil_r].
  - destruct condition;
      [apply checkExpression_append | now rewrite app_nil_r].
Qed.

Lemma checkExpression_spec p e location r :
  In r (checkExpression options checker p e location []) <->
  exists failure,
    getTypeFailure (getTypeAtLocation checker p e) options = Some failure /\
    suppressed options failure = false /\
    r = reportFor options checker p e location failure.
Proof.
  unfold checkExpression, suppressed, reportFor.
  destruct (getTypeFailure _ options) as [failure|].
  - destruct (_ && _ && _) eqn:E; cbn [In app].
    + split; [tauto|]. intros (f & Hf & Hs & _). injection Hf as <-.
      congruence.
    + split.
      * intros [<- | []]. eauto.
      * intros (f & Hf & _ & ->). injection Hf as <-. now left.
  - cbn. split; [tauto|]. intros (f & Hf & _). discriminate Hf.
Qed.

Lemma checkExpression_once p e location :
  NoDup (map report_node (checkExpression options checker p e location [])).
Proof.
  unfold checkExpression.
  destruct (getTypeFailure _ options) as [failure|];
    [destruct (_ && _ && _)|]; cbn; repeat constructor; tauto.
Qed.

Lemma cb_switch_spec p location r :
  In r (cb_switch options checker p location []) <->
  exists i e,
    checkedSlot location = Some i /\
    child location i = Some e /\
    In r (checkExpression options checker (p ++ [i]) e location []).
Proof.
  assert (Hnone : checkedSlot location = None ->
                  In r [] <->
                  exists i e,
                    checkedSlot location = Some i /\
                    child location i = Some e /\
                    In r (checkExpression options checker (p ++ [i]) e
                                          location [])).
  { intros Hn. split; [intros []|]. intros (i & e & Hi & _).
    congruence. }
  assert (Hsome : forall i e,
             checkedSlot location = Some i ->
             child location i = Some e ->
             In r (checkExpression options checker (p ++ [i]) e location [])
             <->
             exists i e,
               checkedSlot location = Some i /\
               child location i = Some e /\
               In r (checkExpression options checker (p ++ [i]) e
                                     location [])).
  { intros i e Hi He. split; [eauto|].
    intros (i' & e' & Hi' & He' & Hin).
    rewrite Hi in Hi'. injection Hi' as <-.
    rewrite He in He'. now injection He' as <-. }
  destruct location; cbn [cb_switch];
    try (apply Hnone; reflexivity);
    try (apply Hsome; reflexivity).
  - cbn [checkedSlot] in *.
    destruct (SyntaxKind.eqb operator SyntaxKind.ExclamationToken);
      [apply Hsome | apply Hnone]; reflexivity.
  - destruct condition; [apply Hsome | apply Hnone]; reflexivity.
Qed.

Lemma cb_switch_once p location :
  NoDup (map report_node (cb_switch options checker p location [])).
Proof.
  destruct location; cbn [cb_switch];
    try apply checkExpression_once; try constructor.
  - destruct (SyntaxKind.eqb _ _); [apply checkExpression_once|constructor].
  - destruct condition; [apply checkExpression_once|constructor].
Qed.

Lemma cb_switch_node p location r :
  In r (cb_switch options checker p location []) ->
  exists i, report_node r = p ++ [i].
Proof.
  intros H. apply cb_switch_spec in H as (i & e & _ & _ & H).
  apply checkExpression_spec in H as (failure & _ & _ & ->).
  exists i. reflexivity.
Qed.

Lemma slotReport_node p node j r :
  slotReport options checker p node j r ->
  exists q i, report_node r = p ++ j :: q ++ [i].
Proof.
  intros (c & _ & q & location & _ & Hin).
  apply cb_switch_node in Hin as (i & ->).
  exists q, i. now rewrite <- !app_assoc.
Qed.

Lemma runsSlots_finished p node lo :
  runsSlots options checker p node lo lo finished.
Proof.
  intros out. exists []. rewrite app_nil_r. repeat split.
  - intros [].
  - intros (j & Hj & _). lia.
  - constructor.
Qed.

Lemma runsSlots_andThen p node lo mid hi v w :
  lo <= mid <= hi ->
  runsSlots options checker p node lo mid v ->
  runsSlots options checker p node mid hi w ->
  runsSlots options checker p node lo hi (andThen v w).
Proof.
  intros Hmid Hv Hw out. unfold andThen.
  destruct (Hv out) as (rs1 & -> & Hin1 & Hnd1).
  destruct (Hw (out ++ rs1)) as (rs2 & -> & Hin2 & Hnd2).
  exists (rs1 ++ rs2). rewrite app_assoc. repeat split.
  - intros Hin. apply in_app_or in Hin as [Hin | Hin].
    + apply Hin1 in Hin as (j & Hj & Hr). exists j. split; [lia|assumption].
    + apply Hin2 in Hin as (j & Hj & Hr). exists j. split; [lia|assumption].
  - intros (j & Hj & Hr). apply in_or_app.
    destruct (Nat.lt_ge_cases j mid).
    + left. apply Hin1. exists j. split; [lia|assumption].
    + right. apply Hin2. exists j. split; [lia|assumption].
  - rewrite map_app. apply NoDup_app; try assumption.
    intros a Ha1 Ha2.
    apply in_map_iff in Ha1 as (r1 & <- & Hr1).
    apply in_map_iff in Ha2 as (r2 & Heq & Hr2).
    apply Hin1 in Hr1 as (j1 & Hj1 & Hs1).
    apply Hin2 in Hr2 as (j2 & Hj2 & Hs2).
    apply slotReport_node in Hs1 as (q1 & i1 & E1).
    apply slotReport_node in Hs2 as (q2 & i2 & E2).
    rewrite E1, E2 in Heq. apply app_inv_head in Heq.
    injection Heq as Heq _. lia.
Qed.

Lemma runsSlots_step p node lo hi v w :
  S lo <= hi ->
  runsSlots options checker p node lo (S lo) v ->
  runsSlots options checker p node (S lo) hi w ->
  runsSlots options checker p node lo hi (andThen v w).
Proof.
  intros H. apply runsSlots_andThen. lia.
Qed.

(** The reports made from a node: those of the switch at the node itself
    and those made through its children. *)
Lemma reportedFrom_split p node r :
  reportedFrom options checker p node r <->
  In r (cb_switch options checker p node []) \/
  exists j, slotReport options checker p node j r.
Proof.
  split.
  - intros ([|j q] & location & Hq & Hin).
    + left. cbn in Hq. injection Hq as <-. now rewrite app_nil_r in Hin.
    + right. exists j. cbn [nodeAt] in Hq.
      destruct (child node j) as [c|] eqn:Hc; [|discriminate].
      exists c. split; [assumption|]. exists q, location.
      split; [assumption|]. now rewrite <- app_assoc.
  - intros [Hin | (j & c & Hc & q & location & Hq & Hin)].
    + exists [], node. split; [reflexivity | now rewrite app_nil_r].
    + exists (j :: q), location. split.
      * cbn [nodeAt]. now rewrite Hc.
      * now rewrite <- app_assoc in Hin.
Qed.

Lemma runsSlots_cb p node j c :
  child node j = Some c ->
  (forall p', runsAll options checker p' c
                      (forEachChild_cb options checker p' c)) ->
  runsSlots options checker p node j (S j)
    (fun out => forEachChild_cb options checker (p ++ [j]) c
                  (cb_switch options checker (p ++ [j]) c out)).
Proof.
  intros Hchild IH out. rewrite cb_switch_append.
  destruct (IH (p ++ [j])
               (out ++ cb_switch options checker (p ++ [j]) c []))
    as (rs2 & -> & Hin2 & Hnd2).
  exists (cb_switch options checker (p ++ [j]) c [] ++ rs2).
  rewrite app_assoc. repeat split.
  - intros Hin. exists j. split; [lia|]. exists c. split; [assumption|].
    apply reportedFrom_split. apply in_app_or in Hin as [Hin | Hin];
      [now left | right; now apply Hin2].
  - intros (j' & Hj' & c' & Hc' & Hfrom).
    assert (j' = j) by lia. subst j'.
    rewrite Hchild in Hc'. injection Hc' as <-.
    apply reportedFrom_split in Hfrom as [Hin | Hin]; apply in_or_app;
      [now left | right; now apply Hin2].
  - rewrite map_app. apply NoDup_app;
      [apply cb_switch_once | assumption |].
    intros a Ha1 Ha2.
    apply in_map_iff in Ha1 as (r1 & <- & Hr1).
    apply in_map_iff in Ha2 as (r2 & Heq & Hr2).
    apply cb_switch_node in Hr1 as (i1 & E1).
    apply Hin2 in Hr2 as (j2 & Hs2).
    apply slotReport_node in Hs2 as (q2 & i2 & E2).
    rewrite E1, E2 in Heq. apply app_inv_head in Heq.
    injection Heq as _ Heq. now destruct q2.
Qed.

Lemma runsSlots_cb_ifPresent p node j o :
  child node j = o ->
  POpt (fun c => forall p', runsAll options checker p' c
                              (forEachChild_cb options checker p' c)) o ->
  runsSlots options checker p node j (S j)
    (ifPresent
       (fun c out => forEachChild_cb options checker (p ++ [j]) c
                       (cb_switch options checker (p ++ [j]) c out)) o).
Proof.
  destruct o as [c|]; cbn [POpt ifPresent]; intros Hchild IH.
  - now apply runsSlots_cb.
  - intros out. exists []. rewrite app_nil_r. repeat split.
    + intros [].
    + intros (j' & Hj' & c' & Hc' & _).
      assert (j' = j) by lia. subst j'. congruence.
    + constructor.
Qed.

Lemma runsAll_of_slots p node n v :
  (forall j, n <= j -> child node j = None) ->
  runsSlots options checker p node 0 n v ->
  runsAll options checker p node v.
Proof.
  intros Hbeyond Hv out.
  destruct (Hv out) as (rs & -> & Hin & Hnd).
  exists rs. repeat split; try assumption.
  - intros H. apply Hin in H as (j & _ & H). eauto.
  - intros (j & Hr). apply Hin. exists j. split; [|assumption].
    destruct (Nat.lt_ge_cases j n) as [|Hge]; [lia|].
    destruct Hr as (c & Hc & _). rewrite (Hbeyond j Hge) in Hc.
    discriminate Hc.
Qed.

(** The traversal below a node makes exactly the reports of the switch at
    each of its descendants, in one pass. *)
Lemma forEachChild_cb_runsAll node :
  forall p, runsAll options checker p node
                    (forEachChild_cb options checker p node).
Proof.
  induction node using Node_induction; intros p; cbn [forEachChild_cb].
  - apply runsAll_of_slots with (n := 1).
    { intros [|j] Hj; [lia | reflexivity]. }
    now apply runsSlots_cb.
  - apply runsAll_of_slots with (n := 3).
    { intros [|[|[|j]]] Hj; try lia; reflexivity. }
    repeat first [ apply runsSlots_cb; [reflexivity | assumption]
                 | apply runsSlots_step; [lia | |] ].
  - apply runsAll_of_slots with (n := 5).
    { intros [|[|[|[|[|j]]]]] Hj; try lia; reflexivity. }
    repeat first [ apply runsSlots_cb; [reflexivity | assumption]
                 | apply runsSlots_step; [lia | |] ].
  - apply runsAll_of_slots with (n := 3).
    { intros [|[|[|j]]] Hj; try lia; reflexivity. }
    repeat first [ apply runsSlots_cb; [reflexivity | assumption]
                 | apply runsSlots_cb_ifPresent; [reflexivity | assumption]
                 | apply runsSlots_step; [lia | |] ].
  - apply runsAll_of_slots with (n := 2).
    { intros [|[|j]] Hj; try lia; reflexivity. }
    repeat first [ apply runsSlots_cb; [reflexivity | assumption]
                 | apply runsSlots_step; [lia | |] ].
  - apply runsAll_of_slots with (n := 2).
    { intros [|[|j]] Hj; try lia; reflexivity. }
    repeat first [ apply runsSlots_cb; [reflexivity | assumption]
                 | apply runsSlots_step; [lia | |] ].
  - apply runsAll_of_slots with (n := 4).
    { intros [|[|[|[|j]]]] Hj; try lia; reflexivity. }
    repeat first [ apply runsSlots_cb; [reflexivity | assumption]
                 | apply runsSlots_cb_ifPresent; [reflexivity | assumption]
                 | apply runsSlots_step; [lia | |] ].
  - apply runsAll_of_slots with (n := List.length children).
    { intros j Hj. cbn [child]. now apply nth_error_None. }
    match goal with
    | |- runsSlots _ _ _ _ _ _ (?each 0 children) =>
        assert (Heach : forall nodes i,
                   (forall n, nth_error children (i + n)
                              = nth_error nodes n) ->
                   Forall (fun c => forall p',
                               runsAll options checker p' c
                                 (forEachChild_cb options checker p' c))
                          nodes ->
                   runsSlots options checker p (Generic k text children)
                             i (i + List.length nodes) (each i nodes))
    end.
    { induction nodes as [|c rest IHrest]; intros i Hnth Hall.
      - cbn [List.length]. rewrite Nat.add_0_r. apply runsSlots_finished.
      - inversion Hall as [|? ? Hc Hrest]; subst.
        apply runsSlots_step.
        + cbn [List.length]. lia.
        + apply runsSlots_cb; [|assumption].
          cbn [child]. specialize (Hnth 0). rewrite Nat.add_0_r in Hnth.
          exact Hnth.
        + cbn [List.length]. rewrite Nat.add_succ_r, <- Nat.add_succ_l.
          apply IHrest; [|assumption].
          intros n. rewrite Nat.add_succ_l, <- Nat.add_succ_r.
          apply (Hnth (S n)). }
    apply (Heach children 0); [reflexivity | assumption].
Qed.

(** The reports of [walk], as a set and without a node reported twice. *)
Lemma walk_exact sourceFile :
  (forall r,
      In r (walk options checker sourceFile) <->
      exists q location i e failure,
        isSite sourceFile q location i e /\
        getTypeFailure (getTypeAtLocation checker (q ++ [i]) e) options
          = Some failure /\
        suppressed options failure = false /\
        r = reportFor options checker (q ++ [i]) e location failure) /\
  NoDup (map report_node (walk options checker sourceFile)).
Proof.
  unfold walk.
  destruct (forEachChild_cb_runsAll sourceFile [] [])
    as (rs & -> & Hin & Hnd).
  cbn [snd app]. split; [|exact Hnd].
  intros r. rewrite Hin. split.
  - intros (j & c & Hc & q & location & Hq & Hr).
    apply cb_switch_spec in Hr as (i & e & Hi & He & Hr).
    apply checkExpression_spec in Hr as (failure & Hf & Hs & ->).
    exists (j :: q), location, i, e, failure.
    cbn [app] in *. repeat split; try assumption; try discriminate.
    cbn [nodeAt]. now rewrite Hc.
  - intros (q & location & i & e & failure & (Hne & Hq & Hi & He)
            & Hf & Hs & ->).
    destruct q as [|j q]; [contradiction|].
    cbn [nodeAt] in Hq.
    destruct (child sourceFile j) as [c|] eqn:Hc; [|discriminate].
    exists j, c. split; [assumption|]. exists q, location.
    split; [assumption|].
    apply cb_switch_spec. exists i, e. repeat split; try assumption.
    apply checkExpression_spec. exists failure. cbn [app].
    repeat split; assumption.
Qed.

End Exact.

(** X11: the reports of [walk] are exactly the failures, not dropped by the
    guard of [checkExpression], of the boolean-context sites of the file: the
    operand of a [!], the condition of an [if], [while], [do-while] or
    conditional expression, and the condition of a [for] that has one, at
    any depth below the source file. *)
Theorem walk_reports_exactly_the_failing_sites
        (options : Options) (checker : TypeChecker) (sourceFile : Node)
        (r : Report) :
  In r (walk options checker sourceFile) <->
  exists q location i e failure,
    isSite sourceFile q location i e /\
    getTypeFailure (getTypeAtLocation checker (q ++ [i]) e) options
      = Some failure /\
    suppressed options failure = false /\
    r = reportFor options checker (q ++ [i]) e location failure.
Proof.
  apply walk_exact.
Qed.


(** X13: under [create] the guard of [checkExpression] never drops a
    failure: the rule reports every boolean-context site whose type fails
    under the resolved options, and nothing else. *)
Theorem create_reports_every_failing_site
        (context : RuleContext) (sourceFile : Node) (r : Report) :
  In r (create context sourceFile) <->
  exists q location i e failure,
    isSite sourceFile q location i e /\
    getTypeFailure
      (getTypeAtLocation (getTypeChecker (parserServices_program context))
                         (q ++ [i]) e)
      (resolvedOptions context) = Some failure /\
    r = reportFor (resolvedOptions context)
                  (getTypeChecker (parserServices_program context))
                  (q ++ [i]) e location failure.
Proof.
  unfold create. rewrite (proj1 (walk_exact _ _ _)). split.
  - intros (q & location & i & e & failure & Hsite & Hf & _ & Hr).
    now exists q, location, i, e, failure.
  - intros (q & location & i & e & failure & Hsite & Hf & Hr).
    exists q, location, i, e, failure.
    split; [assumption|]. split; [assumption|]. split; [|assumption].
    unfold suppressed, resolvedOptions.
    cbn [parseOptions strictNullChecks negb].
    now destruct (TypeFailure.eqb failure TypeFailure.AlwaysTruthy).
Qed.

Lemma getTypeFailure_never_Mixes type options :
  getTypeFailure type options <> Some TypeFailure.Mixes.
Proof.
  unfold getTypeFailure.
  destruct (isUnionType type); [apply handleUnion_not_Mixes|].
  destruct (failureForKind (getKind type) false options) eqn:E.
  - rewrite <- E. apply failureForKind_not_Mixes.
  - destruct (triState (getKind type)) as [[|]|]; split_ifs; discriminate.
Qed.

Lemma checkedSlot_showLocation location i :
  checkedSlot location = Some i ->
  exists phrase,
    In phrase checkedLocationPhrases /\ showLocation location = Some phrase.
Proof.
  destruct location; cbn [checkedSlot showLocation]; try discriminate;
    intros _; eexists; (split; [|reflexivity]); cbn; tauto.
Qed.

(** X14: every message of [walk] names one of the six locations that [cb]'s
    switch checks and a failure other than [Mixes]: the phrase for an operand
    of [&&] or [||], the text [undefined] for an unknown location and the
    phrase for mixed unions are never written. *)
Theorem walk_messages_name_a_checked_location
        (options : Options) (checker : TypeChecker) (sourceFile : Node) :
  Forall (fun r =>
            exists phrase location failure unionType,
              In phrase checkedLocationPhrases /\
              showLocation location = Some phrase /\
              failure <> TypeFailure.Mixes /\
              report_message r
              = showFailure location failure unionType options)
         (walk options checker sourceFile).
Proof.
  apply Forall_forall. intros r Hr.
  apply (proj1 (walk_exact _ _ _)) in Hr
    as (q & location & i & e & failure & (_ & _ & Hi & _) & Hf & _ & ->).
  destruct (checkedSlot_showLocation _ Hi) as (phrase & Hin & Hshow).
  exists phrase, location, failure,
         (isUnionType (getTypeAtLocation checker (q ++ [i]) e)).
  repeat split; try assumption.
  intros ->. exact (getTypeFailure_never_Mixes _ _ Hf).
Qed.

(** ** Options that are never read *)

Section SameEffect.

Variables options options' : Options.
Variable checker : TypeChecker.

Hypothesis Hstrict : strictNullChecks options = strictNullChecks options'.
Hypothesis Hnull : allowNullUnion options = allowNullUnion options'.
Hypothesis Hundefined :
  allowUndefinedUnion options = allowUndefinedUnion options'.
Hypothesis Hstring : allowString options = allowString options'.
Hypothesis Henum : allowEnum options = allowEnum options'.
Hypothesis Hnumber : allowNumber options = allowNumber options'.
Hypothesis Hboolean :
  allowBooleanOrUndefined options = allowBooleanOrUndefined options'.

Lemma failureForKind_same kind isInUnion :
  failureForKind kind isInUnion options
  = failureForKind kind isInUnion options'.
Proof.
  unfold failureForKind.
  now rewrite Hnull, Hundefined, Hstring, Henum, Hnumber.
Qed.

Lemma handleUnion_loop_same tys :
  handleUnion_loop tys options = handleUnion_loop tys options'.
Proof.
  induction tys as [|ty tys IH]; cbn [handleUnion_loop]; [reflexivity|].
  now rewrite failureForKind_same, IH.
Qed.

Lemma getTypeFailure_same type :
  getTypeFailure type options = getTypeFailure type options'.
Proof.
  unfold getTypeFailure, handleUnion.
  now rewrite Hboolean, handleUnion_loop_same, failureForKind_same.
Qed.

Lemma showFailure_same location ty unionType :
  showFailure location ty unionType options
  = showFailure location ty unionType options'.
Proof.
  unfold showFailure, showExpectedTypes.
  now rewrite Hstrict, Hnull, Hundefined, Hstring, Henum, Hnumber, Hboolean.
Qed.

Lemma checkExpression_same p e location out :
  checkExpression options checker p e location out
  = checkExpression options' checker p e location out.
Proof.
  unfold checkExpression.
  rewrite getTypeFailure_same.
  destruct (getTypeFailure _ options'); [|reflexivity].
  now rewrite Hstrict, Hnull, Hundefined, showFailure_same.
Qed.

Lemma cb_switch_same p node out :
  cb_switch options checker p node out
  = cb_switch options' checker p node out.
Proof.
  destruct node; cbn [cb_switch]; try reflexivity;
    try apply checkExpression_same.
  - destruct (SyntaxKind.eqb _ _);
      [apply checkExpression_same | reflexivity].
  - destruct condition; [apply checkExpression_same | reflexivity].
Qed.

Lemma andThen_same (v v' w w' : Visit) :
  (forall out, v out = v' out) ->
  (forall out, w out = w' out) ->
  forall out, andThen v w out = andThen v' w' out.
Proof.
  intros Hv Hw out. unfold andThen. rewrite Hv.
  destruct (v' out) as [[u|] out']; [reflexivity | apply Hw].
Qed.

Lemma cb_same p j c :
  (forall p' out, forEachChild_cb options checker p' c out
                  = forEachChild_cb options' checker p' c out) ->
  forall out,
    forEachChild_cb options checker (p ++ [j]) c
      (cb_switch options checker (p ++ [j]) c out)
    = forEachChild_cb options' checker (p ++ [j]) c
        (cb_switch options' checker (p ++ [j]) c out).
Proof.
  intros IH out. now rewrite cb_switch_same, IH.
Qed.

Lemma cb_ifPresent_same p j o :
  POpt (fun c => forall p' out,
            forEachChild_cb options checker p' c out
            = forEachChild_cb options' checker p' c out) o ->
  forall out,
    ifPresent (fun c out => forEachChild_cb options checker (p ++ [j]) c
                              (cb_switch options checker (p ++ [j]) c out))
              o out
    = ifPresent (fun c out => forEachChild_cb options' checker (p ++ [j]) c
                                (cb_switch options' checker (p ++ [j]) c
                                           out))
                o out.
Proof.
  destruct o as [c|]; cbn [POpt ifPresent]; intros IH out;
    [now apply cb_same | reflexivity].
Qed.

Lemma forEachChild_cb_same node :
  forall p out,
    forEachChild_cb options checker p node out
    = forEachChild_cb options' checker p node out.
Proof.
  induction node using Node_induction; intros p; cbn [forEachChild_cb];
    repeat first [ apply cb_same; assumption
                 | apply cb_ifPresent_same; assumption
                 | apply andThen_same ].
  match goal with
  | |- forall out, ?each 0 children out = ?each' 0 children out =>
      assert (Heach : forall nodes i out,
                 Forall (fun c => forall p' out,
                             forEachChild_cb options checker p' c out
                             = forEachChild_cb options' checker p' c out)
                        nodes ->
                 each i nodes out = each' i nodes out)
  end.
  { induction nodes as [|c rest IHrest]; intros i out Hall;
      [reflexivity|].
    inversion Hall as [|? ? Hc Hrest]; subst.
    apply andThen_same; [now apply cb_same|].
    intros out'. now apply IHrest. }
  intros out. now apply Heach.
Qed.

Lemma walk_same sourceFile :
  walk options checker sourceFile = walk options' checker sourceFile.
Proof.
  unfold walk. now rewrite forEachChild_cb_same.
Qed.

End SameEffect.

(** X15: what [create] reports depends on the configuration only through
    which of the six names of [effectiveOptions] occur in its first entry:
    [allow-mix] and [allow-any-rhs] change nothing, nor do the order of the
    names, their repetition or any later entry. *)
Theorem create_reads_six_names
        (program : Program) (configured configured' : list string)
        (rest rest' : list (list string)) (sourceFile : Node) :
  (forall name, In name effectiveOptions ->
                (In name configured <-> In name configured')) ->
  create (MkRuleContext (configured :: rest) program) sourceFile
  = create (MkRuleContext (configured' :: rest') program) sourceFile.
Proof.
  intros H. unfold create, resolvedOptions, rawOptions.
  cbn [context_options parserServices_program].
  apply walk_same; cbn [parseOptions strictNullChecks allowNullUnion
                          allowUndefinedUnion allowString allowEnum
                          allowNumber allowBooleanOrUndefined];
    try reflexivity; apply has_agree, H; cbn; tauto.
Qed.

Lemma create_reads_six_names_witness :
  create (Sample.project true Sample.if_s_flag_or_x_env
                         [["allow-null-union"]])
         Sample.if_s_flag_or_x_file
  = create (Sample.project true Sample.if_s_flag_or_x_env
                           [["allow-any-rhs"; "allow-null-union";
                             "allow-mix"; "allow-null-union"];
                            ["allow-string"]])
           Sample.if_s_flag_or_x_file.
Proof.
  apply (@create_reads_six_names
           (MkProgram (CompilerOptions.Mk true)
                      (Sample.checkerOf Sample.if_s_flag_or_x_env))
           ["allow-null-union"]
           ["allow-any-rhs"; "allow-null-union"; "allow-mix";
            "allow-null-union"]
           [] [["allow-string"]] Sample.if_s_flag_or_x_file).
  intros name H. cbn in H.
  repeat (destruct H as [<- | H]; [cbn; intuition discriminate|]).
  destruct H.
Defined.

Lemma walk_reports_exactly_the_failing_sites_witness :
  In (MkReport [0; 0]
        ("This type is not allowed in the 'if' condition because it is " ++
         "a string. Only booleans are allowed."))
     (walk (parseOptions [] true)
           (Sample.checkerOf Sample.if_s_flag_or_x_env)
           Sample.if_s_flag_or_x_file).
Proof.
  apply (proj2 (walk_reports_exactly_the_failing_sites
                  (parseOptions [] true)
                  (Sample.checkerOf Sample.if_s_flag_or_x_env)
                  Sample.if_s_flag_or_x_file _)).
  exists [0],
         (IfStatement (Sample.identifier "s")
                      (Sample.block
                         [Sample.expressionStatement Sample.flag_or_x])
                      None),
         0, (Sample.identifier "s"), TypeFailure.String.
  split; [|split; [|split]]; try reflexivity.
  split; [discriminate|]. split; [|split]; reflexivity.
Defined.

Lemma create_reports_every_failing_site_witness :
  In (MkReport [0; 0]
        ("This type is not allowed in the 'if' condition because it is " ++
         "always truthy. Allowed types are boolean or null-union."))
     (create Sample.nonStrictProject Sample.if_obj_file).
Proof.
  apply (proj2 (create_reports_every_failing_site
                  Sample.nonStrictProject Sample.if_obj_file _)).
  exists [0],
         (IfStatement (Sample.identifier "obj") (Sample.block []) None),
         0, (Sample.identifier "obj"), TypeFailure.AlwaysTruthy.
  split; [|split]; try reflexivity.
  split; [discriminate|]. split; [|split]; reflexivity.
Defined.
